(** * Caspian application entry point ([dist/main.py]): request pipeline

    A shallow embedding of the request lifecycle of [main.py]: the query
    parameter coercer, the three pure-ASGI middleware classes and the way
    [app.add_middleware] stacks them, the page handler built by
    [register_single_route], and the 500 exception handler.

    Python values are small inductive types, raising code lives in an
    exception monad, the session and the cache store are [gmap]s, ordered
    dictionaries are association lists, and everything that the file
    imports from [casp], Starlette or the standard library is a field of an
    environment record or a section variable. *)

From Stdlib Require Import ZArith Ascii String List Bool Lia.
From stdpp Require Import base option strings pretty list gmap.

Set Warnings "-register-all".

Local Open Scope string_scope.
Local Open Scope Z_scope.

(** ** Python exceptions *)

Module Py.

Inductive exn : Type :=
| ValueError
| IndexError
| AttributeError (msg : string)
| OtherError (msg : string).

(** A computation that either returns or raises. *)
Inductive Exc (A : Type) : Type :=
| Ret (a : A)
| Raise (e : exn).
Arguments Ret {A} a.
Arguments Raise {A} e.

Definition bind {A B} (m : Exc A) (k : A -> Exc B) : Exc B :=
  match m with
  | Ret a => k a
  | Raise e => Raise e
  end.

(** [try: body  except Exception: handler] *)
Definition try_except {A} (body : Exc A) (handler : exn -> Exc A) : Exc A :=
  match body with
  | Ret a => Ret a
  | Raise e => handler e
  end.

(** A list comprehension whose element expression may raise. *)
Fixpoint comprehension {A B} (f : A -> Exc B) (l : list A) : Exc (list B) :=
  match l with
  | [] => Ret []
  | x :: xs =>
      bind (f x) (fun y => bind (comprehension f xs) (fun ys => Ret (y :: ys)))
  end.

Definition returns {A} (m : Exc A) : Prop := exists a, m = Ret a.

(** *** The [str] methods used by [main.py]

    Text is a sequence of code points below 256; [isspace] and [lower]
    are CPython's on that range. *)

(** [str.isspace] on one character: tab to carriage return, the four
    separators before the space, the space, NEL and the no-break space. *)
Definition is_space (c : ascii) : bool :=
  let n := nat_of_ascii c in
  ((9 <=? n)%nat && (n <=? 13)%nat) || ((28 <=? n)%nat && (n <=? 32)%nat)
  || (n =? 133)%nat || (n =? 160)%nat.

Fixpoint lstrip (s : string) : string :=
  match s with
  | String c s' => if is_space c then lstrip s' else s
  | EmptyString => EmptyString
  end.

Definition rstrip (s : string) : string :=
  String.rev (lstrip (String.rev s)).

(** [str.strip()] *)
Definition strip (s : string) : string := rstrip (lstrip s).

(** [A-Z], and the capital letters of the Latin-1 block. *)
Definition lower_char (c : ascii) : ascii :=
  let n := nat_of_ascii c in
  if (((65 <=? n)%nat && (n <=? 90)%nat)
      || ((192 <=? n)%nat && (n <=? 214)%nat)
      || ((216 <=? n)%nat && (n <=? 222)%nat))%bool
  then ascii_of_nat (n + 32) else c.

(** [str.lower()] *)
Fixpoint lower (s : string) : string :=
  match s with
  | String c s' => String (lower_char c) (lower s')
  | EmptyString => EmptyString
  end.

(** [bool(s)] for a [str]. *)
Definition truthy_str (s : string) : bool :=
  match s with
  | EmptyString => false
  | _ => true
  end.

(** [x in (a, b, ...)] for strings. *)
Definition in_tuple (x : string) (t : list string) : bool :=
  existsb (String.eqb x) t.
Global Arguments in_tuple : simpl never.

(** *** [int(s)] for decimal text

    Surrounding whitespace is stripped, one sign is allowed, and the
    digits may be grouped by single underscores. *)

Definition digit_of (c : ascii) : option Z :=
  let n := nat_of_ascii c in
  if ((48 <=? n)%nat && (n <=? 57)%nat)%bool then Some (Z.of_nat n - 48) else None.

Fixpoint int_digits (acc : Z) (after_digit : bool) (s : string) : option Z :=
  match s with
  | EmptyString => if after_digit then Some acc else None
  | String c s' =>
      match digit_of c with
      | Some d => int_digits (10 * acc + d) true s'
      | None =>
          if (Ascii.eqb c "_" && after_digit)%bool
          then int_digits acc false s'
          else None
      end
  end.

Definition int_of_str (s : string) : option Z :=
  match strip s with
  | String "+" ds => int_digits 0 false ds
  | String "-" ds => Z.opp <$> int_digits 0 false ds
  | ds => int_digits 0 false ds
  end.

(** [s.endswith(suffix)] *)
Definition endswith (s suffix : string) : bool :=
  String.prefix (String.rev suffix) (String.rev s).

(** *** Dictionaries with string keys, in insertion order *)

Definition dict (V : Type) : Type := list (string * V).

Fixpoint dict_set {V} (d : dict V) (k : string) (v : V) : dict V :=
  match d with
  | [] => [(k, v)]
  | (k', v') :: d' =>
      if String.eqb k' k then (k, v) :: d' else (k', v') :: dict_set d' k v
  end.

(** [d.update(other)], which is also [{**d, **other}] on a copy. *)
Definition dict_update {V} (d other : dict V) : dict V :=
  fold_left (fun acc kv => dict_set acc (fst kv) (snd kv)) other d.

Definition dict_get {V} (d : dict V) (k : string) : option V :=
  snd <$> find (fun kv => String.eqb (fst kv) k) d.

Definition dict_contains {V} (d : dict V) (k : string) : bool :=
  existsb (fun kv => String.eqb (fst kv) k) d.

End Py.

Notation "x <- m ;;; k" := (Py.bind m (fun x => k))
  (at level 100, m at next level, right associativity).

(** ** Query parameter coercion ([_unwrap_optional], [_coerce_scalar],
       [_coerce_query_param]) *)

Module Coerce.

(** Parameter annotations as [typing.get_origin] and [typing.get_args]
    see them. [AListOf args] is any generic alias whose origin is [list]
    ([list[T]], [typing.List[T]], and [typing.List] with no arguments);
    the bare class [list] has no origin and is an [AClass]. *)
Inductive Ann : Type :=
| AEmpty                      (* inspect._empty: no annotation *)
| AStr
| AAny
| AInt
| AFloat
| ABool
| ANoneType                   (* type(None) *)
| AClass (name : string)
| AListOf (args : list Ann)
| AUnion (args : list Ann)    (* typing.Union[...], typing.Optional[...] *)
| AGeneric (origin : string) (args : list Ann).

Inductive Origin : Type :=
| OList
| OUnion
| OOther (name : string).

Definition get_origin (a : Ann) : option Origin :=
  match a with
  | AListOf _ => Some OList
  | AUnion _ => Some OUnion
  | AGeneric o _ => Some (OOther o)
  | _ => None
  end.

Definition get_args (a : Ann) : list Ann :=
  match a with
  | AListOf args | AUnion args | AGeneric _ args => args
  | _ => []
  end.

Definition is_NoneType (a : Ann) : bool :=
  match a with ANoneType => true | _ => false end.

Definition is_list_origin (o : option Origin) : bool :=
  match o with Some OList => true | _ => false end.

Definition _unwrap_optional (annotation : Ann) : Ann :=
  match get_origin annotation with
  | Some OUnion =>
      let args := List.filter (fun a => negb (is_NoneType a)) (get_args annotation) in
      match args with
      | [a] => a
      | _ => annotation
      end
  | _ => annotation
  end.

(** [Optional[list[T]]]: a union whose only member besides [NoneType] is a
    list alias. *)
Definition optional_list_of (ann : Ann) (targs : list Ann) : Prop :=
  exists us, ann = AUnion us
             /\ List.filter (fun a => negb (is_NoneType a)) us = [AListOf targs].

(** The multi-valued query string, as Starlette's [QueryParams]: the
    pairs in the order of the URL. *)
Definition QueryParams := list (string * string).

(** [query_params.getlist(name)]: every value of the key, in order. *)
Definition getlist (q : QueryParams) (name : string) : list string :=
  snd <$> List.filter (fun kv => String.eqb (fst kv) name) q.

(** [query_params.get(name)]: the multi-dict keeps, per key, the value
    of the last pair. *)
Definition get (q : QueryParams) (name : string) : option string :=
  last (getlist q name).

(** [name in query_params] *)
Definition contains (q : QueryParams) (name : string) : bool :=
  existsb (fun kv => String.eqb (fst kv) name) q.

Section Coercion.

(** The builtins [int] and [float] applied to a [str]: [None] stands
    for the [ValueError] they raise on text they cannot parse. *)
Variable PyFloat : Type.
Variable py_int : string -> option Z.
Variable py_float : string -> option PyFloat.

(** The values coercion can produce. *)
Inductive Value : Type :=
| VNone
| VStr (s : string)
| VInt (z : Z)
| VFloat (f : PyFloat)
| VBool (b : bool)
| VList (l : list Value).

Definition int (s : string) : Py.Exc Z :=
  match py_int s with
  | Some z => Py.Ret z
  | None => Py.Raise Py.ValueError
  end.

Definition float (s : string) : Py.Exc PyFloat :=
  match py_float s with
  | Some f => Py.Ret f
  | None => Py.Raise Py.ValueError
  end.

Definition true_words : list string := ["1"; "true"; "t"; "yes"; "y"; "on"].
Definition false_words : list string := ["0"; "false"; "f"; "no"; "n"; "off"].

Definition _coerce_scalar (value : option string) (annotation : Ann)
  : Py.Exc Value :=
  match value with
  | None => Py.Ret VNone
  | Some value =>
      let ann := _unwrap_optional annotation in
      Py.try_except
        match ann with
        | AEmpty | AStr | AAny => Py.Ret (VStr value)
        | AInt => z <- int value ;;; Py.Ret (VInt z)
        | AFloat => f <- float value ;;; Py.Ret (VFloat f)
        | ABool =>
            let v := Py.lower (Py.strip value) in
            if Py.in_tuple v true_words then Py.Ret (VBool true)
            else if Py.in_tuple v false_words then Py.Ret (VBool false)
            else Py.Ret (VBool (Py.truthy_str value))
        | _ => Py.Ret (VStr value)
        end
        (fun _ => Py.Ret (VStr value))
  end.

Definition _coerce_query_param (query_params : QueryParams) (name : string)
           (ann : Ann) : Py.Exc Value :=
  if is_list_origin (get_origin ann) then
    let inner := match get_args ann with a :: _ => a | [] => AStr end in
    let values := getlist query_params name in
    l <- Py.comprehension (fun v => _coerce_scalar (Some v) inner) values ;;;
    Py.Ret (VList l)
  else
    let unwrapped := _unwrap_optional ann in
    if is_list_origin (get_origin unwrapped) then
      let inner := match get_args unwrapped with a :: _ => a | [] => AStr end in
      let values := getlist query_params name in
      l <- Py.comprehension (fun v => _coerce_scalar (Some v) inner) values ;;;
      Py.Ret (VList l)
    else
      _coerce_scalar (get query_params name) ann.

End Coercion.

Arguments VNone {PyFloat}.
Arguments VStr {PyFloat} s.
Arguments VInt {PyFloat} z.
Arguments VFloat {PyFloat} f.
Arguments VBool {PyFloat} b.
Arguments VList {PyFloat} l.
Arguments _coerce_scalar {PyFloat} py_int py_float value annotation.
Arguments _coerce_query_param {PyFloat} py_int py_float query_params name ann.

(** A float parser that rejects everything: enough to run the integer
    and boolean paths. *)
Definition no_float (s : string) : option Empty_set := None.

End Coerce.

(** ** Responses and module-level configuration *)

Module Http.

(** The configuration block read from the environment at import time. *)
Record Config : Type := {
  IS_PRODUCTION : bool;
  CACHE_ENABLED : bool;
  DEFAULT_TTL : Z
}.

(** Response objects. [resp_headers] holds the headers [main.py] sets on
    the object itself; what Starlette derives from the body (content type
    and length) is added when the response is sent. [ForeignResponse] is a
    response object built by a collaborator (the RPC subsystem, an OAuth
    provider, a page handler, a custom auth-failure hook). *)
Inductive Stream : Type :=
| Generator (id : nat)
| AsyncGenerator (id : nat).

Inductive Response : Type :=
| HTMLResponse (content : string) (status_code : Z)
               (resp_headers : list (string * string))
| RedirectResponse (url : string) (status_code : Z)
| SSE (result : Stream)
| ForeignResponse (id : nat).

(** [response.headers[k] = v] *)
Definition set_header (r : Response) (k v : string) : Response :=
  match r with
  | HTMLResponse c s hs =>
      HTMLResponse c s
        (List.filter (fun kv => negb (String.eqb (fst kv) k)) hs ++ [(k, v)])%list
  | _ => r
  end.

Definition header_names (r : Response) : list string :=
  match r with
  | HTMLResponse _ _ hs => fst <$> hs
  | _ => []
  end.

End Http.

(** ** The pure ASGI middleware classes and their stacking *)

Module Asgi.
Import Http.

Record Scope : Type := {
  scope_type : string;                    (* scope["type"] *)
  method : string;
  path : string;                          (* request.url.path *)
  headers : list (string * string)        (* raw headers, names in lower case *)
}.

(** An ASGI event handed to [send]; a dictionary with a ["type"] key and,
    for some types, a ["headers"] key. *)
Record Message : Type := {
  msg_type : string;
  msg_status : Z;
  msg_headers : option (list (string * string));
  msg_body : string
}.

(** What a request can mutate: the session dictionary that
    [SessionMiddleware] puts in the scope (one object, shared by every
    layer), and the number of tokens drawn from [secrets]. *)
Record World : Type := {
  session : gmap string string;
  tokens_drawn : nat
}.

(** The outcome of awaiting an ASGI application: the events it sent, in
    order, the exception it let escape (if any), and the world it left. *)
Record Outcome : Type := {
  sent : list Message;
  raised : option Py.exn;
  world : World
}.

Definition App : Type := Scope -> World -> Outcome.

(** [request.headers.get(key)]: keys are compared in lower case and the
    first match wins. *)
Definition headers_get (hs : list (string * string)) (key : string) : option string :=
  snd <$> find (fun kv => String.eqb (fst kv) (Py.lower key)) hs.

(** [s.startswith((p1, p2, ...))] *)
Definition startswith (s : string) (prefixes : list string) : bool :=
  existsb (fun p => String.prefix p s) prefixes.

Definition is_http (scope : Scope) : bool := String.eqb (scope_type scope) "http".

(** The [casp.auth] instance bound to the current request. *)
Record AuthSettings : Type := {
  default_signin_redirect : string;
  is_role_based : bool;
  on_auth_failure : option (Scope -> Response)
}.

Record AuthInst : Type := {
  auth_providers : list string -> option Response;
  is_public_route : string -> bool;
  is_auth_route : string -> bool;
  is_authenticated : bool;
  settings : AuthSettings;
  get_required_roles : string -> list string;
  get_payload : gmap string string;
  check_role : gmap string string -> list string -> bool;
  is_private_route : string -> bool
}.

(** The collaborators of the middleware layer. *)
Record Env : Type := {
  (** [secrets.token_hex(nbytes)], as the text of the [n]-th draw *)
  token_hex : Z -> nat -> string;
  (** [await response(scope, receive, send)]: the events a response sends *)
  asgi_send : Response -> Scope -> list Message;
  (** [StateManager.init(request)] followed by [Auth.set_request(request)] *)
  StateManager_init : Scope -> World -> World;
  (** [Auth.get_instance()], after the request has been bound *)
  Auth_get_instance : Scope -> World -> AuthInst;
  (** [Auth.get_providers()] *)
  Auth_get_providers : list string;
  (** [casp.rpc._handle_rpc_request(request, session)] *)
  _handle_rpc_request : Scope -> gmap string string -> World -> Response * World;
  (** Starlette's [SessionMiddleware] *)
  SessionMiddleware_call : App -> App
}.

Section Middleware.
Variable cfg : Config.
Variable env : Env.

(** [await response(scope, receive, send); return] *)
Definition respond (r : Response) (scope : Scope) (w : World) : Outcome :=
  {| sent := asgi_send env r scope; raised := None; world := w |}.

(** *** [CSRFMiddleware] *)

(** Lines 168-171: look the token up in the session, mint and store one
    when it is missing or empty. *)
Definition csrf_token_for (w : World) : string * World :=
  match session w !! "csrf_token" with
  | Some t =>
      if Py.truthy_str t then (t, w)
      else
        let t' := token_hex env 32 (tokens_drawn w) in
        (t', {| session := <["csrf_token" := t']> (session w);
                tokens_drawn := S (tokens_drawn w) |})
  | None =>
      let t' := token_hex env 32 (tokens_drawn w) in
      (t', {| session := <["csrf_token" := t']> (session w);
              tokens_drawn := S (tokens_drawn w) |})
  end.

Definition cookie_value (csrf_token : string) : string :=
  let v := "pp_csrf=" +:+ csrf_token +:+ "; Path=/; SameSite=Lax" in
  if IS_PRODUCTION cfg then v +:+ "; Secure" else v.

(** [send_wrapper]: what reaches the outer [send] for one event of the
    wrapped application. *)
Definition send_wrapper (csrf_token : string) (message : Message) : Message :=
  if String.eqb (msg_type message) "http.response.start" then
    let new_headers := (default [] (msg_headers message)
                        ++ [("set-cookie", cookie_value csrf_token)])%list in
    {| msg_type := msg_type message;
       msg_status := msg_status message;
       msg_headers := Some new_headers;
       msg_body := msg_body message |}
  else message.

Definition CSRFMiddleware (app : App) : App := fun scope w =>
  if negb (is_http scope) then app scope w
  else
    let '(csrf_token, w1) := csrf_token_for w in
    let r := app scope w1 in
    {| sent := send_wrapper csrf_token <$> sent r;
       raised := raised r;
       world := world r |}.

(** *** [AuthMiddleware] *)

Definition static_prefixes : list string :=
  ["/css/"; "/js/"; "/assets/"; "/favicon.ico"].

Definition AuthMiddleware (app : App) : App := fun scope w =>
  if negb (is_http scope) then app scope w
  else
    let path := path scope in
    if startswith path static_prefixes then app scope w
    else
      let w := StateManager_init env scope w in
      let auth_inst := Auth_get_instance env scope w in
      let providers := Auth_get_providers env in
      let oauth_response :=
        match providers with
        | [] => None
        | _ => auth_providers auth_inst providers
        end in
      match oauth_response with
      | Some r => respond r scope w
      | None =>
          if is_public_route auth_inst path then app scope w
          else if is_auth_route auth_inst path then
            if is_authenticated auth_inst then
              respond (RedirectResponse
                         (default_signin_redirect (settings auth_inst)) 303)
                      scope w
            else app scope w
          else
            let role_gate :=
              if is_role_based (settings auth_inst) then
                match get_required_roles auth_inst path with
                | [] => None
                | required_roles =>
                    if negb (is_authenticated auth_inst) then
                      Some (RedirectResponse ("/signin?next=" +:+ path) 303)
                    else if negb (check_role auth_inst (get_payload auth_inst)
                                             required_roles) then
                      Some (RedirectResponse "/unauthorized" 303)
                    else None
                end
              else None in
            match role_gate with
            | Some r => respond r scope w
            | None =>
                if (is_private_route auth_inst path
                    && negb (is_authenticated auth_inst))%bool then
                  match on_auth_failure (settings auth_inst) with
                  | Some hook => respond (hook scope) scope w
                  | None =>
                      respond (RedirectResponse ("/signin?next=" +:+ path) 303)
                              scope w
                  end
                else app scope w
            end
      end.

(** *** [RPCMiddleware] *)

Definition is_rpc_request (scope : Scope) : bool :=
  (bool_decide (headers_get (headers scope) "X-PP-RPC" = Some "true")
   && String.eqb (method scope) "POST")%bool.

Definition RPCMiddleware (app : App) : App := fun scope w =>
  if negb (is_http scope) then app scope w
  else if is_rpc_request scope then
    let session := session w in          (* dict(request.session) *)
    let '(response, w') := _handle_rpc_request env scope session w in
    respond response scope w'
  else app scope w.

(** *** Registration: [app.add_middleware] and the stack it builds *)

Inductive MiddlewareClass : Type :=
| cRPCMiddleware
| cAuthMiddleware
| cCSRFMiddleware
| cSessionMiddleware.

(** [self.user_middleware.insert(0, Middleware(cls))] *)
Definition add_middleware (cls : MiddlewareClass)
           (user_middleware : list MiddlewareClass) : list MiddlewareClass :=
  cls :: user_middleware.

(** Lines 553-565, in program order. *)
Definition user_middleware : list MiddlewareClass :=
  add_middleware cSessionMiddleware
    (add_middleware cCSRFMiddleware
       (add_middleware cAuthMiddleware
          (add_middleware cRPCMiddleware []))).

(** [cls(app)] *)
Definition instantiate (cls : MiddlewareClass) (app : App) : App :=
  match cls with
  | cRPCMiddleware => RPCMiddleware app
  | cAuthMiddleware => AuthMiddleware app
  | cCSRFMiddleware => CSRFMiddleware app
  | cSessionMiddleware => SessionMiddleware_call env app
  end.

(** [for cls in reversed(middleware): app = cls(app)] *)
Definition build_middleware_stack (middleware : list MiddlewareClass)
           (router : App) : App :=
  fold_left (fun app cls => instantiate cls app) (rev middleware) router.

End Middleware.

End Asgi.

(** ** The page handler built by [register_single_route] *)

Module Page.
Import Http Coerce.

Record Request : Type := {
  method : string;
  path : string;                              (* request.url.path *)
  path_params : Py.dict string;
  query_params : QueryParams
}.

(** What a page function can return. *)
Inductive PyObj : Type :=
| OResponse (r : Response)
| OStream (s : Stream)
| OTuple (items : list PyObj)
| ODict (items : list (string * PyObj))
| OStr (s : string)
| OInt (z : Z)
| ONone
| OOther (id : nat).

Inductive ParamKind : Type :=
| POSITIONAL_ONLY
| POSITIONAL_OR_KEYWORD
| VAR_POSITIONAL
| KEYWORD_ONLY
| VAR_KEYWORD.

Record Param : Type := {
  name : string;
  kind : ParamKind;
  annotation : Ann
}.

Record CacheSettings : Type := {
  enabled : option bool;        (* [None]: a value that is neither True nor False *)
  ttl : Z
}.

Record Metadata : Type := {
  title : option string;
  description : option string;
  extra : Py.dict string
}.

Record CacheEntry : Type := {
  content : string;
  expiresAt : Z
}.

(** The mutable surroundings of a request: the shared cache store with
    its clock, and the two request-scratch context variables. *)
Record State : Type := {
  cache : gmap string CacheEntry;
  now : Z;
  _runtime_metadata : option Metadata;
  _runtime_injections : list string * list string
}.

(** Code that reads and writes the state and may raise. *)
Definition M (A : Type) : Type := State -> Py.Exc A * State.

Definition ret {A} (a : A) : M A := fun st => (Py.Ret a, st).
Definition raise {A} (e : Py.exn) : M A := fun st => (Py.Raise e, st).
Definition lift {A} (m : Py.Exc A) : M A := fun st => (m, st).
Definition bindM {A B} (m : M A) (k : A -> M B) : M B := fun st =>
  match m st with
  | (Py.Ret a, st') => k a st'
  | (Py.Raise e, st') => (Py.Raise e, st')
  end.

Notation "x <-- m ;; k" := (bindM m (fun x => k))
  (at level 100, m at next level, right associativity).

(** *** [CacheHandler] *)

(** Modelled from the spec: [casp.cache_handler.CacheHandler] is not part
    of [main.py]. [serve_cache] returns the stored content of a URI only
    if an entry exists and [now < expiresAt], and evicts an expired entry
    when it reads it. *)
Definition serve_cache (uri : string) (default_ttl : Z) : M (option string) :=
  fun st =>
    match cache st !! uri with
    | Some e =>
        if now st <? expiresAt e then (Py.Ret (Some (content e)), st)
        else (Py.Ret None,
              {| cache := delete uri (cache st); now := now st;
                 _runtime_metadata := _runtime_metadata st;
                 _runtime_injections := _runtime_injections st |})
    | None => (Py.Ret None, st)
    end.

(** Modelled from the spec: [save_cache] unconditionally overwrites the
    entry of the URI. *)
Definition save_cache (uri : string) (html : string) (ttl : Z) : M unit :=
  fun st =>
    (Py.Ret tt,
     {| cache := <[uri := {| content := html; expiresAt := now st + ttl |}]> (cache st);
        now := now st;
        _runtime_metadata := _runtime_metadata st;
        _runtime_injections := _runtime_injections st |}).

Section Handler.

Variable PyFloat : Type.
Variable py_int : string -> option Z.
Variable py_float : string -> option PyFloat.

(** An argument passed to the page function by keyword. *)
Inductive Arg : Type :=
| ArgRequest                       (* the live request object *)
| ArgValue (v : Value PyFloat).

(** A value of the render context. *)
Inductive CtxVal : Type :=
| CStr (s : string)
| CRequest
| CObj (o : PyObj).

Record PageFn : Type := {
  signature : list Param;                 (* inspect.signature(page).parameters *)
  iscoroutinefunction : bool;
  (** the call of [page] on [call_args] and [call_kwargs] *)
  call : list (Py.dict string) -> Py.dict Arg -> M PyObj
}.

Record PageModule : Type := {
  page : option PageFn;                       (* hasattr(module, 'page') *)
  cache_settings : option CacheSettings;      (* None: absent or falsy *)
  metadata : option Metadata
}.

(** The collaborators of the page handler. Loading a module and calling
    its [page] function run user code, which may touch the state; the
    renderers only read it. *)
Record Env : Type := {
  load_route_module : string -> M PageModule;
  load_template_file : string -> Py.Exc string;
  transform_components : string -> string -> Py.Exc string;
  render_with_nested_layouts :
    string -> string -> Py.dict string -> Py.dict PyObj -> Py.dict CtxVal
    -> State -> Py.Exc (string * string);
  transform_scripts : string -> Py.Exc string;
  (** [str(x)] for an object that is not itself a [str] *)
  str_of : PyObj -> string;
  (** [os.path.dirname] *)
  dirname : string -> string
}.

Variable cfg : Config.
Variable env : Env.

Definition str (o : PyObj) : string :=
  match o with
  | OStr s => s
  | _ => str_of env o
  end.

(** Lines 358-359. *)
Definition reset_runtime : M unit := fun st =>
  (Py.Ret tt,
   {| cache := cache st; now := now st;
      _runtime_metadata := None;
      _runtime_injections := ([], []) |}).

(** Lines 392-401: one turn of the loop over the signature. *)
Definition bind_parameter (request : Request) (call_kwargs : Py.dict Arg)
           (param : Param) : Py.Exc (Py.dict Arg) :=
  let name := name param in
  if Py.dict_contains call_kwargs name then Py.Ret call_kwargs
  else if Py.in_tuple name ["kwargs"] then Py.Ret call_kwargs
  else
    match kind param with
    | VAR_POSITIONAL | VAR_KEYWORD => Py.Ret call_kwargs
    | _ =>
        if contains (query_params request) name then
          v <- _coerce_query_param py_int py_float (query_params request)
                 name (annotation param) ;;;
          Py.Ret (Py.dict_set call_kwargs name (ArgValue v))
        else Py.Ret call_kwargs
    end.

Fixpoint bind_parameters (request : Request) (call_kwargs : Py.dict Arg)
         (params : list Param) : Py.Exc (Py.dict Arg) :=
  match params with
  | [] => Py.Ret call_kwargs
  | p :: ps =>
      kw <- bind_parameter request call_kwargs p ;;;
      bind_parameters request kw ps
  end.

Definition has_parameter (sig : list Param) (n : string) : bool :=
  existsb (fun p => String.eqb (name p) n) sig.

(** Lines 379-406: load the module, bind the arguments, call [page]. *)
Definition invoke_page (file_path : string) (request : Request)
  : M (PageModule * PyObj) :=
  let kwargs := path_params request in
  module <-- load_route_module env file_path ;;
  match page module with
  | None =>
      raise (Py.AttributeError ("Missing 'def page():' in " +:+ file_path))
  | Some page =>
      let sig := signature page in
      let call_args := match kwargs with [] => [] | _ => [kwargs] end in
      let call_kwargs :=
        if has_parameter sig "request" then [("request", ArgRequest)] else [] in
      call_kwargs <-- lift (bind_parameters request call_kwargs sig) ;;
      result <-- call page call_args call_kwargs ;;
      ret (module, result)
  end.

(** Lines 414-417: the handler-declared cache override. *)
Definition cache_policy (module : PageModule) : option bool * Z :=
  match cache_settings module with
  | Some cs => (enabled cs, ttl cs)
  | None => (None, 0)
  end.

(** Lines 419-424: content and layout props of a value that is neither
    a response nor a stream. *)
Definition content_and_props (result : PyObj) : Py.Exc (string * Py.dict PyObj) :=
  match result with
  | OTuple items =>
      match items with
      | [] => Py.Raise Py.IndexError              (* result[0] *)
      | first :: rest =>
          let content := str first in
          match rest with
          | ODict d :: _ => Py.Ret (content, d)
          | _ => Py.Ret (content, [])
          end
      end
  | _ => Py.Ret (str result, [])
  end.

(** Lines 429-439. *)
Definition extract_meta (obj : option Metadata) : Py.dict string :=
  match obj with
  | None => []
  | Some obj =>
      let d := [] in
      let d := match title obj with
               | Some t => if Py.truthy_str t then Py.dict_set d "title" t else d
               | None => d
               end in
      let d := match description obj with
               | Some t => if Py.truthy_str t then Py.dict_set d "description" t else d
               | None => d
               end in
      Py.dict_update d (extra obj)
  end.

(** Lines 426-442: static metadata first, dynamic metadata over it. *)
Definition page_metadata_of (module : PageModule) (st : State) : Py.dict string :=
  let dynamic_meta := _runtime_metadata st in
  let static_meta := metadata module in
  Py.dict_update (Py.dict_update [] (extract_meta static_meta))
                 (extract_meta dynamic_meta).

(** Lines 462-469: the admission decision. *)
Definition should_cache_of (req_should_cache : option bool) : bool :=
  match req_should_cache with
  | Some true => true
  | Some false => false
  | None => CACHE_ENABLED cfg
  end.

(** Line 447: [{**kwargs, "request": request, **page_layout_props}] *)
Definition full_context_of (kwargs : Py.dict string)
           (page_layout_props : Py.dict PyObj) : Py.dict CtxVal :=
  Py.dict_update
    (Py.dict_set (map (fun kv => (fst kv, CStr (snd kv))) kwargs) "request" CRequest)
    (map (fun kv => (fst kv, CObj (snd kv))) page_layout_props).

(** Lines 446-475: render the content through the layouts, build the
    response, and save it to the cache when admitted. *)
Definition render_and_cache (request : Request) (route_dir : string)
           (content : string) (page_metadata : Py.dict string)
           (page_layout_props : Py.dict PyObj)
           (req_should_cache : option bool) (req_cache_ttl : Z) : M Response :=
  let kwargs := path_params request in
  let current_uri := path request in
  content <-- lift (transform_components env content route_dir) ;;
  let full_context := full_context_of kwargs page_layout_props in
  rendered <--
    (fun st => (render_with_nested_layouts env content route_dir page_metadata
                  page_layout_props full_context st, st)) ;;
  let '(html_output, root_layout_id) := rendered in
  html_output <-- lift (transform_scripts env html_output) ;;
  let response :=
    set_header (HTMLResponse html_output 200 []) "X-PP-Root-Layout" root_layout_id in
  let should_cache := should_cache_of req_should_cache in
  if (should_cache && String.eqb (method request) "GET")%bool then
    let ttl_to_save :=
      if req_cache_ttl >? 0 then req_cache_ttl else DEFAULT_TTL cfg in
    _ <-- save_cache current_uri html_output ttl_to_save ;;
    ret response
  else ret response.

(** Lines 408-475: what becomes of the value [page] returned. *)
Definition respond_to_result (request : Request) (route_dir : string)
           (module : PageModule) (result : PyObj) : M Response :=
  match result with
  | OResponse r => ret r
  | OStream s => ret (SSE s)
  | _ =>
      let '(req_should_cache, req_cache_ttl) := cache_policy module in
      cp <-- lift (content_and_props result) ;;
      let '(content, page_layout_props) := cp in
      page_metadata <-- (fun st => (Py.Ret (page_metadata_of module st), st)) ;;
      render_and_cache request route_dir content page_metadata
                       page_layout_props req_should_cache req_cache_ttl
  end.

(** [if cached_resp:] for a value that is [None] or a [str]. *)
Definition truthy_content (cached_resp : option string) : bool :=
  match cached_resp with
  | Some c => Py.truthy_str c
  | None => false
  end.

(** Lines 364-368: the value of [cached_resp], [None] when the cache is
    not consulted. *)
Definition cache_check (request : Request) : M (option string) :=
  if String.eqb (method request) "GET"
  then serve_cache (path request) (DEFAULT_TTL cfg)
  else ret None.

Definition make_handler (file_path : string) (request : Request) : M Response :=
  _ <-- reset_runtime ;;
  cached_resp <-- cache_check request ;;
  if truthy_content cached_resp then
    ret (HTMLResponse (default "" cached_resp) 200 [])
  else
    let route_dir := dirname env file_path in
    if Py.endswith file_path ".py" then
      mr <-- invoke_page file_path request ;;
      respond_to_result request route_dir (fst mr) (snd mr)
    else
      content <-- lift (load_template_file env file_path) ;;
      render_and_cache request route_dir content [] [] None 0.

End Handler.

Arguments ArgRequest {PyFloat}.
Arguments ArgValue {PyFloat}.
Arguments signature {PyFloat}.
Arguments iscoroutinefunction {PyFloat}.
Arguments call {PyFloat}.
Arguments page {PyFloat}.
Arguments cache_settings {PyFloat}.
Arguments metadata {PyFloat}.
Arguments load_route_module {PyFloat}.
Arguments load_template_file {PyFloat}.
Arguments transform_components {PyFloat}.
Arguments render_with_nested_layouts {PyFloat}.
Arguments transform_scripts {PyFloat}.
Arguments str_of {PyFloat}.
Arguments dirname {PyFloat}.
Arguments str {PyFloat}.
Arguments bind_parameter {PyFloat}.
Arguments bind_parameters {PyFloat}.
Arguments invoke_page {PyFloat}.
Arguments cache_policy {PyFloat}.
Arguments content_and_props {PyFloat}.
Arguments page_metadata_of {PyFloat}.
Arguments render_and_cache {PyFloat}.
Arguments respond_to_result {PyFloat}.
Arguments make_handler {PyFloat}.

End Page.

(** ** The 500 handler ([custom_general_exception_handler]) *)

Module Errors.
Import Http.

(** The names bound when [error.html] is expanded. *)
Record ErrorContext : Type := {
  request : Page.Request;
  error_message : string;
  error_trace : option string
}.

Record Env : Type := {
  (** [str(exc)] *)
  str_exc : Py.exn -> string;
  (** [src/app/error.html]: [None] when [os.path.exists] says the file is
      not there, otherwise what [open] and [f.read()] give, which is the
      text or the exception they raise (a directory, a file that cannot be
      read or decoded) *)
  error_page : option (Py.Exc string);
  (** [string_env.from_string(raw_content).render] on the context as keywords *)
  render_string : string -> ErrorContext -> Py.Exc string;
  (** [render_with_nested_layouts] with [page_layout_props=None] and
      [transform_fn=transform_scripts] *)
  render_with_nested_layouts :
    string -> string -> Py.dict string -> ErrorContext -> Py.Exc (string * string)
}.

Section Handler.
Variable cfg : Config.
Variable env : Env.

Definition fallback_page (error_message : string) : Response :=
  HTMLResponse
    ("<h1>500 - Internal Server Error</h1><p>" +:+ error_message +:+ "</p>")
    500 [].

(** Lines 526-544: the [try] block around the expansion of the template
    and the layout composition; an exception of either is caught. *)
Definition render_error_page (request : Page.Request) (raw_content : string)
           (error_message : string) (error_trace : option string) : Response :=
  let context_data :=
    {| request := request;
       error_message := error_message;
       error_trace := error_trace |} in
  let attempt :=
    rendered_content <- render_string env raw_content context_data ;;;
    out <- render_with_nested_layouts env rendered_content "src/app"
             [("title", "Application Error");
              ("description", "An unexpected error occurred.")]
             context_data ;;;
    let '(html_output, root_layout_id) := out in
    Py.Ret (set_header (HTMLResponse html_output 500 [])
                       "X-PP-Root-Layout" root_layout_id) in
  match attempt with
  | Py.Ret resp => resp
  | Py.Raise render_exc => fallback_page error_message
  end.

(** [format_exc] is the text [traceback.format_exc()] returns for the
    exception being handled. The two [print] calls write to the
    server's standard output and leave the response untouched. Reading
    [error.html] (lines 522-523) comes before the [try]: an exception of
    the read escapes the handler. *)
Definition custom_general_exception_handler (request : Page.Request)
           (exc : Py.exn) (format_exc : string) : Py.Exc Response :=
  let error_message := str_exc env exc in
  let error_trace := if negb (IS_PRODUCTION cfg) then Some format_exc else None in
  match error_page env with
  | Some read =>
      raw_content <- read ;;;
      Py.Ret (render_error_page request raw_content error_message error_trace)
  | None => Py.Ret (fallback_page error_message)
  end.

End Handler.

End Errors.

(** ** A small application: concrete collaborators to run the model on *)

Module Sample.
Import Http.

Definition dev : Config :=
  {| IS_PRODUCTION := false; CACHE_ENABLED := false; DEFAULT_TTL := 600 |}.

Definition prod : Config :=
  {| IS_PRODUCTION := true; CACHE_ENABLED := false; DEFAULT_TTL := 600 |}.

(** *** Middleware layer *)

Definition start (status : Z) (hs : list (string * string)) : Asgi.Message :=
  {| Asgi.msg_type := "http.response.start"; Asgi.msg_status := status;
     Asgi.msg_headers := Some hs; Asgi.msg_body := "" |}.

Definition body (b : string) : Asgi.Message :=
  {| Asgi.msg_type := "http.response.body"; Asgi.msg_status := 0;
     Asgi.msg_headers := None; Asgi.msg_body := b |}.

Definition send_response (r : Response) (scope : Asgi.Scope) : list Asgi.Message :=
  match r with
  | HTMLResponse c s hs => [start s (("content-type", "text/html") :: hs); body c]
  | RedirectResponse url s => [start s [("location", url)]; body ""]
  | SSE _ => [start 200 [("content-type", "text/event-stream")]]
  | ForeignResponse _ => [start 200 [("content-type", "application/json")]; body "{}"]
  end.

(** An auth instance that classifies by exact match on route lists. *)
Definition auth_of (public_routes auth_routes private_routes : list string)
           (authenticated : bool) : Asgi.AuthInst :=
  {| Asgi.auth_providers := fun _ => None;
     Asgi.is_public_route := fun p => Py.in_tuple p public_routes;
     Asgi.is_auth_route := fun p => Py.in_tuple p auth_routes;
     Asgi.is_authenticated := authenticated;
     Asgi.settings :=
       {| Asgi.default_signin_redirect := "/dashboard";
          Asgi.is_role_based := false;
          Asgi.on_auth_failure := None |};
     Asgi.get_required_roles := fun _ => [];
     Asgi.get_payload := ∅;
     Asgi.check_role := fun _ _ => true;
     Asgi.is_private_route := fun p => Py.in_tuple p private_routes |}.

(** A user counts as signed in when the session holds a ["user"] key. *)
Definition signed_in (w : Asgi.World) : bool :=
  bool_decide (is_Some (Asgi.session w !! "user")).

Definition token : string :=
  "9f2c4e1ab07d35c68e90f1a2b3c4d5e6f708192a3b4c5d6e7f8091a2b3c4d5e6".

Definition asgi_env (public_routes auth_routes private_routes : list string)
  : Asgi.Env :=
  {| Asgi.token_hex := fun _ _ => token;
     Asgi.asgi_send := send_response;
     Asgi.StateManager_init := fun _ w => w;
     Asgi.Auth_get_instance := fun _ w =>
       auth_of public_routes auth_routes private_routes (signed_in w);
     Asgi.Auth_get_providers := ["github"; "google"];
     Asgi._handle_rpc_request := fun _ _ w => (ForeignResponse 1, w);
     Asgi.SessionMiddleware_call := fun app => app |}.

(** The application as configured by [setup_auth], with one private route. *)
Definition env : Asgi.Env := asgi_env ["/"] ["/signin"; "/signup"] ["/account"].

(** A configuration that lists [/signin] as public and as auth-only. *)
Definition env_overlap : Asgi.Env := asgi_env ["/"; "/signin"] ["/signin"] [].

(** The router: every request is answered with one page. *)
Definition router : Asgi.App := fun scope w =>
  {| Asgi.sent := [start 200 [("content-type", "text/html")]; body "<p>page</p>"];
     Asgi.raised := None;
     Asgi.world := w |}.

Definition http (method path : string) (hs : list (string * string)) : Asgi.Scope :=
  {| Asgi.scope_type := "http"; Asgi.method := method; Asgi.path := path;
     Asgi.headers := hs |}.

Definition anonymous : Asgi.World :=
  {| Asgi.session := ∅; Asgi.tokens_drawn := 0 |}.

Definition member : Asgi.World :=
  {| Asgi.session := {["user" := "ada"]}; Asgi.tokens_drawn := 0 |}.


(** *** Page handler *)

(** [str] of the few objects the sample pages return. *)
Fixpoint repr (o : Page.PyObj) : string :=
  match o with
  | Page.OStr s => "'" +:+ s +:+ "'"
  | Page.OInt z => pretty z
  | Page.ONone => "None"
  | Page.OTuple items =>
      match items with
      | [x] => "(" +:+ repr x +:+ ",)"
      | _ =>
          "(" +:+ (fix go (l : list Page.PyObj) : string :=
                     match l with
                     | [] => ""
                     | [x] => repr x
                     | x :: l' => repr x +:+ ", " +:+ go l'
                     end) items +:+ ")"
      end
  | _ => "<object>"
  end.

Definition str_of (o : Page.PyObj) : string :=
  match o with
  | Page.OStr s => s
  | _ => repr o
  end.

(** A module whose [page()] takes no parameter and returns [result]. *)
Definition module_returning (result : Page.PyObj)
           (cs : option Page.CacheSettings) : Page.PageModule Empty_set :=
  {| Page.page :=
       Some {| Page.signature := [];
               Page.iscoroutinefunction := false;
               Page.call := fun _ _ => Page.ret result |};
     Page.cache_settings := cs;
     Page.metadata := None |}.

(** Layouts that wrap the page in one [<main>] element. *)
Definition page_env (module : Page.PageModule Empty_set) : Page.Env Empty_set :=
  {| Page.load_route_module := fun _ => Page.ret module;
     Page.load_template_file := fun _ => Py.Ret "<p>static</p>";
     Page.transform_components := fun c _ => Py.Ret c;
     Page.render_with_nested_layouts := fun children _ _ _ _ _ =>
       Py.Ret ("<main>" +:+ children +:+ "</main>", "src/app/layout.html");
     Page.transform_scripts := fun h => Py.Ret h;
     Page.str_of := str_of;
     Page.dirname := fun _ => "src/app/hello" |}.

(** A page that declares [enabled=True] with a TTL of one minute. *)
Definition cached_module : Page.PageModule Empty_set :=
  module_returning (Page.OStr "hello")
    (Some {| Page.enabled := Some true; Page.ttl := 60 |}).

(** A page that returns the tuple [("hi", 5)]. *)
Definition pair_module : Page.PageModule Empty_set :=
  module_returning (Page.OTuple [Page.OStr "hi"; Page.OInt 5]) None.

(** A page that returns content and layout props. *)
Definition props_module : Page.PageModule Empty_set :=
  module_returning
    (Page.OTuple [Page.OStr "hi"; Page.ODict [("title", Page.OStr "Hi")]]) None.

Definition hello (method : string) : Page.Request :=
  {| Page.method := method; Page.path := "/hello";
     Page.path_params := []; Page.query_params := [] |}.

Definition cold : Page.State :=
  {| Page.cache := ∅; Page.now := 1000;
     Page._runtime_metadata := None; Page._runtime_injections := ([], []) |}.

(** A store holding a live entry for [/hello] whose content is empty. *)
Definition blank_entry : Page.State :=
  {| Page.cache := {["/hello" := {| Page.content := ""; Page.expiresAt := 2000 |}]};
     Page.now := 1000;
     Page._runtime_metadata := None; Page._runtime_injections := ([], []) |}.

(** A store holding a live entry for [/hello]. *)
Definition warm : Page.State :=
  {| Page.cache :=
       {["/hello" := {| Page.content := "<main>cached</main>";
                        Page.expiresAt := 2000 |}]};
     Page.now := 1000;
     Page._runtime_metadata := None; Page._runtime_injections := ([], []) |}.

Definition make_handler (cfg : Config) (module : Page.PageModule Empty_set)
  : Page.Request -> Page.M Response :=
  Page.make_handler Py.int_of_str Coerce.no_float cfg (page_env module)
    "src/app/hello/index.py".

(** *** Error handler *)

Definition error_env (render : string -> Errors.ErrorContext -> Py.Exc string)
  : Errors.Env :=
  {| Errors.str_exc := fun e =>
       match e with
       | Py.AttributeError m | Py.OtherError m => m
       | Py.ValueError => "invalid literal"
       | Py.IndexError => "tuple index out of range"
       end;
     Errors.error_page :=
       Some (Py.Ret "<h1>{{ error_message }}</h1>{{ error_trace }}");
     Errors.render_string := render;
     Errors.render_with_nested_layouts := fun children _ _ _ =>
       Py.Ret ("<main>" +:+ children +:+ "</main>", "src/app/layout.html") |}.

(** A template engine that prints the message and, when bound, the trace. *)
Definition print_error (raw : string) (ctx : Errors.ErrorContext) : Py.Exc string :=
  Py.Ret ("<h1>" +:+ Errors.error_message ctx +:+ "</h1>"
          +:+ default "" (Errors.error_trace ctx)).

(** A template engine that fails on every template. *)
Definition broken (raw : string) (ctx : Errors.ErrorContext) : Py.Exc string :=
  Py.Raise (Py.OtherError "unexpected end of template").

End Sample.

(** ** Route registration ([register_routes], [register_single_route]) *)

Module Routes.

(** [s.replace(old, new)]: the occurrences of [old] are found from the left
    and do not overlap. [skip] counts the characters of a match that are
    still to be dropped. *)
Fixpoint replace_from (old new : string) (skip : nat) (s : string) : string :=
  match s with
  | EmptyString => EmptyString
  | String c r =>
      match skip with
      | S k => replace_from old new k r
      | O =>
          if String.prefix old s
          then new +:+ replace_from old new (String.length old - 1) r
          else String c (replace_from old new 0 r)
      end
  end.

(** With an empty [old], [new] goes before every character and at the end. *)
Fixpoint intersperse (new : string) (s : string) : string :=
  match s with
  | EmptyString => new
  | String c r => new +:+ String c (intersperse new r)
  end.

Definition replace (s old new : string) : string :=
  match old with
  | EmptyString => intersperse new s
  | _ => replace_from old new 0 s
  end.

(** One entry of the route index of [casp.caspian_config.get_files_index];
    an absent [fs_dir] is the empty string. *)
Record RouteEntry : Type := {
  fastapi_rule : string;
  fs_dir : string;
  has_py : bool
}.

(** Lines 350-352: the index file of a route. *)
Definition full_path (route : RouteEntry) : string :=
  let base_path :=
    if Py.truthy_str (fs_dir route) then "src/app/" +:+ fs_dir route else "src/app" in
  let file_name := if has_py route then "index.py" else "index.html" in
  replace (base_path +:+ "/" +:+ file_name) "//" "/".

(** Lines 477-478: the endpoint name of a file path. *)
Definition endpoint (file_path : string) : string :=
  replace
    (replace
       (replace
          (replace
             (replace
                (replace (replace file_path "/" "_") "\" "_")
                "." "_")
             "[" "")
          "]" "")
       "(" "")
    ")" "".

(** What [app.add_api_route] records. *)
Record ApiRoute : Type := {
  url_pattern : string;
  file_path : string;          (* the path [make_handler] is closed over *)
  methods : list string;
  route_name : string
}.

Definition register_single_route (url_pattern file_path : string) : ApiRoute :=
  {| url_pattern := url_pattern;
     file_path := file_path;
     methods := ["GET"; "POST"];
     route_name := endpoint file_path |}.

(** Lines 347-353: one registration per route of the index, in order. *)
Definition register_routes (routes : list RouteEntry) : list ApiRoute :=
  map (fun route => register_single_route (fastapi_rule route) (full_path route)) routes.

End Routes.

(** ** The 404 handler ([custom_404_handler]) *)

Module NotFound.
Import Http.

(** A [StarletteHTTPException]. *)
Record HTTPException : Type := {
  status_code : Z;
  detail : string
}.

Record Env : Type := {
  (** the text of [src/app/not-found.html], when the file exists *)
  not_found_page : option string;
  (** [render_with_nested_layouts] with [page_layout_props=None],
      [context_data={'request': request}] and [transform_fn=transform_scripts] *)
  render_with_nested_layouts :
    string -> string -> Py.dict string -> Page.Request -> Py.Exc (string * string)
}.

Definition inline_page (exc : HTTPException) : Response :=
  HTMLResponse ("<h1>" +:+ detail exc +:+ "</h1>") (status_code exc) [].

Definition custom_404_handler (env : Env) (request : Page.Request)
           (exc : HTTPException) : Py.Exc Response :=
  if status_code exc =? 404 then
    match not_found_page env with
    | Some content =>
        out <- render_with_nested_layouts env content "src/app"
                 [("title", "Page Not Found");
                  ("description", "The page you are looking for does not exist.")]
                 request ;;;
        let '(html_output, root_layout_id) := out in
        Py.Ret (set_header (HTMLResponse html_output 404 [])
                           "X-PP-Root-Layout" root_layout_id)
    | None => Py.Ret (inline_page exc)
    end
  else Py.Ret (inline_page exc).

(** The status line of a response built by [main.py]; responses of other
    origins keep theirs to themselves. *)
Definition status_of (r : Response) : option Z :=
  match r with
  | HTMLResponse _ s _ => Some s
  | RedirectResponse _ s => Some s
  | SSE _ | ForeignResponse _ => None
  end.

End NotFound.

(** ** More of the small application *)

Module Fixtures.
Import Http.

(** A route index: the root page, a static page and a dynamic segment. *)
Definition index : list Routes.RouteEntry :=
  [ {| Routes.fastapi_rule := "/"; Routes.fs_dir := ""; Routes.has_py := true |};
    {| Routes.fastapi_rule := "/about"; Routes.fs_dir := "about";
       Routes.has_py := false |};
    {| Routes.fastapi_rule := "/blog/{slug}"; Routes.fs_dir := "blog/[slug]";
       Routes.has_py := true |} ].

(** Role-based access: [/admin] asks for the role [admin]; the user's role
    is read from the session. *)
Definition role_env (hook : option (Asgi.Scope -> Response)) : Asgi.Env :=
  {| Asgi.token_hex := fun _ _ => Sample.token;
     Asgi.asgi_send := Sample.send_response;
     Asgi.StateManager_init := fun _ w => w;
     Asgi.Auth_get_instance := fun _ w =>
       {| Asgi.auth_providers := fun _ => None;
          Asgi.is_public_route := fun p => Py.in_tuple p ["/"];
          Asgi.is_auth_route := fun p => Py.in_tuple p ["/signin"; "/signup"];
          Asgi.is_authenticated := Sample.signed_in w;
          Asgi.settings :=
            {| Asgi.default_signin_redirect := "/dashboard";
               Asgi.is_role_based := true;
               Asgi.on_auth_failure := hook |};
          Asgi.get_required_roles := fun p =>
            if Py.in_tuple p ["/admin"] then ["admin"] else [];
          Asgi.get_payload := Asgi.session w;
          Asgi.check_role := fun payload roles =>
            match payload !! "role" with
            | Some r => Py.in_tuple r roles
            | None => false
            end;
          Asgi.is_private_route := fun p => Py.in_tuple p ["/admin"; "/account"] |};
     Asgi.Auth_get_providers := [];
     Asgi._handle_rpc_request := fun _ _ w => (ForeignResponse 1, w);
     Asgi.SessionMiddleware_call := fun app => app |}.

Definition login_hook (scope : Asgi.Scope) : Response :=
  RedirectResponse "/custom-login" 303.

(** A page function declaring [request], a typed [page] number, tags, and
    the two variadic captures. *)
Definition listing_signature : list Page.Param :=
  [ {| Page.name := "request"; Page.kind := Page.POSITIONAL_OR_KEYWORD;
       Page.annotation := Coerce.AEmpty |};
    {| Page.name := "page"; Page.kind := Page.POSITIONAL_OR_KEYWORD;
       Page.annotation := Coerce.AInt |};
    {| Page.name := "tag"; Page.kind := Page.POSITIONAL_OR_KEYWORD;
       Page.annotation := Coerce.AListOf [Coerce.AStr] |};
    {| Page.name := "args"; Page.kind := Page.VAR_POSITIONAL;
       Page.annotation := Coerce.AEmpty |};
    {| Page.name := "kwargs"; Page.kind := Page.VAR_KEYWORD;
       Page.annotation := Coerce.AEmpty |} ].

Definition listing_request : Page.Request :=
  {| Page.method := "GET"; Page.path := "/blog";
     Page.path_params := [];
     Page.query_params :=
       [("request", "spoof"); ("page", "2"); ("tag", "a"); ("tag", "b");
        ("args", "x"); ("kwargs", "y"); ("other", "z")] |}.

(** A module without a [page] function. *)
Definition empty_module : Page.PageModule Empty_set :=
  {| Page.page := None; Page.cache_settings := None; Page.metadata := None |}.

(** A module whose [page] raises. *)
Definition failing_module : Page.PageModule Empty_set :=
  {| Page.page :=
       Some {| Page.signature := [];
               Page.iscoroutinefunction := false;
               Page.call := fun _ _ => Page.raise (Py.OtherError "boom") |};
     Page.cache_settings :=
       Some {| Page.enabled := Some true; Page.ttl := 60 |};
     Page.metadata := None |}.

Definition cached_config : Config :=
  {| IS_PRODUCTION := false; CACHE_ENABLED := true; DEFAULT_TTL := 600 |}.

Definition not_found_env (render_ok : bool) : NotFound.Env :=
  {| NotFound.not_found_page := Some "<h1>Not here</h1>";
     NotFound.render_with_nested_layouts := fun children _ _ _ =>
       if render_ok
       then Py.Ret ("<main>" +:+ children +:+ "</main>", "src/app/layout.html")
       else Py.Raise (Py.OtherError "layout.html: syntax error") |}.

End Fixtures.

(** * Properties *)

(** ** Query parameter coercion *)

Section CoerceFacts.
Import Coerce.

Lemma in_tuple_In (x : string) (t : list string) :
  Py.in_tuple x t = true <-> In x t.
Proof.
  unfold Py.in_tuple. rewrite existsb_exists. split.
  - intros (y & Hy & Heq). apply String.eqb_eq in Heq. now subst.
  - intros H. exists x. split; [assumption | apply String.eqb_refl].
Qed.

Lemma in_tuple_not_In (x : string) (t : list string) :
  Py.in_tuple x t = false <-> ~ In x t.
Proof.
  rewrite <- in_tuple_In. destruct (Py.in_tuple x t); split; intros H;
    try reflexivity; try discriminate; try (intros H'; discriminate).
  exfalso. now apply H.
Qed.

Lemma truthy_str_nonempty (s : string) :
  Py.truthy_str s = negb (String.eqb s "").
Proof. destruct s; reflexivity. Qed.

Lemma comprehension_Forall2 {A B} (f : A -> Py.Exc B) (l : list A) :
  (forall x, Py.returns (f x)) ->
  exists ys, Py.comprehension f l = Py.Ret ys
             /\ Forall2 (fun x y => f x = Py.Ret y) l ys.
Proof.
  intros Hf. induction l as [| x xs IH]; simpl.
  - exists []. split; [reflexivity | constructor].
  - destruct IH as (ys & Hys & Hall). destruct (Hf x) as (y & Hy).
    exists (y :: ys). rewrite Hy, Hys. simpl. split; [reflexivity |].
    constructor; assumption.
Qed.

End CoerceFacts.

Lemma coerce_scalar_returns {PyFloat : Type} (py_int : string -> option Z)
      (py_float : string -> option PyFloat) (value : option string)
      (annotation : Coerce.Ann) :
  Py.returns (Coerce._coerce_scalar py_int py_float value annotation).
Proof.
  unfold Coerce._coerce_scalar, Py.returns. destruct value as [v |]; [| eauto].
  destruct (Coerce._unwrap_optional annotation); simpl; eauto.
  - unfold Coerce.int. destruct (py_int v); simpl; eauto.
  - unfold Coerce.float. destruct (py_float v); simpl; eauto.
  - repeat match goal with
           | |- context [if Py.in_tuple ?a ?b then _ else _] =>
               destruct (Py.in_tuple a b)
           end; eauto.
Qed.

(** C4 (as written) fails on a value with surrounding whitespace: [" false "]
    matches neither word set when compared case-insensitively and is not
    empty, so the rule as written makes it true; the code strips the value
    before matching and returns false. *)
Lemma coerce_scalar_bool_padded_false :
  Py.in_tuple (Py.lower " false ") Coerce.true_words = false
  /\ Py.in_tuple (Py.lower " false ") Coerce.false_words = false
  /\ Py.truthy_str " false " = true
  /\ Coerce._coerce_scalar Py.int_of_str Coerce.no_float (Some " false ") Coerce.ABool
     = Py.Ret (Coerce.VBool false).
Proof. repeat split; reflexivity. Qed.

(** C4 (amended): [_coerce_scalar] never raises. With [ann] the annotation
    after unwrapping [Optional]: no annotation, [str] and [Any] return the
    value unchanged; [int] and [float] return the parsed number, and the
    original string when parsing fails; [bool] strips surrounding whitespace
    and lowers the case of the value, returns true on a word of
    {1,true,t,yes,y,on}, false on a word of {0,false,f,no,n,off}, and
    otherwise whether the original value is non-empty. *)
Theorem coerce_scalar_rule :
  forall (PyFloat : Type) (py_int : string -> option Z)
         (py_float : string -> option PyFloat)
         (value : string) (annotation : Coerce.Ann),
    let ann := Coerce._unwrap_optional annotation in
    let r := Coerce._coerce_scalar py_int py_float (Some value) annotation in
    Py.returns r
    /\ (ann = Coerce.AEmpty \/ ann = Coerce.AStr \/ ann = Coerce.AAny ->
        r = Py.Ret (Coerce.VStr value))
    /\ (ann = Coerce.AInt ->
        r = Py.Ret (match py_int value with
                    | Some z => Coerce.VInt z
                    | None => Coerce.VStr value
                    end))
    /\ (ann = Coerce.AFloat ->
        r = Py.Ret (match py_float value with
                    | Some f => Coerce.VFloat f
                    | None => Coerce.VStr value
                    end))
    /\ (ann = Coerce.ABool ->
        let v := Py.lower (Py.strip value) in
        (In v ["1"; "true"; "t"; "yes"; "y"; "on"] -> r = Py.Ret (Coerce.VBool true))
        /\ (In v ["0"; "false"; "f"; "no"; "n"; "off"] -> r = Py.Ret (Coerce.VBool false))
        /\ (~ In v ["1"; "true"; "t"; "yes"; "y"; "on"] ->
            ~ In v ["0"; "false"; "f"; "no"; "n"; "off"] ->
            r = Py.Ret (Coerce.VBool (negb (String.eqb value ""))))).
Proof.
  intros PyFloat py_int py_float value annotation ann r.
  split; [apply coerce_scalar_returns |].
  subst r. unfold Coerce._coerce_scalar. fold ann. clearbody ann.
  split; [| split; [| split]].
  - intros [-> | [-> | ->]]; reflexivity.
  - intros ->. simpl. unfold Coerce.int. destruct (py_int value); reflexivity.
  - intros ->. simpl. unfold Coerce.float. destruct (py_float value); reflexivity.
  - intros ->. cbv zeta. cbn [Py.try_except]. set (v := Py.lower (Py.strip value)).
    unfold Coerce.true_words, Coerce.false_words.
    split; [| split].
    + intros Hin. apply in_tuple_In in Hin. now rewrite Hin.
    + intros Hin.
      destruct (Py.in_tuple v ["1"; "true"; "t"; "yes"; "y"; "on"]) eqn:Ht.
      * (* the two word sets are disjoint *)
        apply in_tuple_In in Ht. simpl in Ht, Hin.
        repeat match goal with
               | H : _ \/ _ |- _ => destruct H as [H | H]
               | H : False |- _ => destruct H
               end; subst v; congruence.
      * apply in_tuple_In in Hin. now rewrite Hin.
    + intros Ht Hf.
      apply in_tuple_not_In in Ht. apply in_tuple_not_In in Hf. rewrite Ht, Hf.
      now rewrite truthy_str_nonempty.
Qed.

(** C5 (as written) fails on two ordinary ways to write a list type: the
    bare class [list], which has no typing origin, and the union
    [list[int] | None], whose origin is [types.UnionType] and which
    [_unwrap_optional] leaves alone. On [?x=1&x=2&x=3] both give the last
    value of the key as the string it was, not a list. *)
Lemma list_annotation_read_as_scalar :
  Coerce._coerce_query_param Py.int_of_str Coerce.no_float
    [("x", "1"); ("x", "2"); ("x", "3")] "x" (Coerce.AClass "list")
  = Py.Ret (Coerce.VStr "3")
  /\ Coerce._coerce_query_param Py.int_of_str Coerce.no_float
       [("x", "1"); ("x", "2"); ("x", "3")] "x"
       (Coerce.AGeneric "types.UnionType"
          [Coerce.AListOf [Coerce.AInt]; Coerce.ANoneType])
     = Py.Ret (Coerce.VStr "3").
Proof. split; reflexivity. Qed.

(** C5 (amended): for a parameter annotated with a parameterised list
    alias, [list[T]] or [typing.List[T]], or with [typing.Optional] of one
    ([typing.Union[list[T], None]]), [_coerce_query_param] returns a list
    with one element per value of the query key, in the order of the query
    string, each the scalar coercion of that value at [T] ([str] when the
    alias has no argument); and [?x=1&x=2&x=3] at [list[int]] gives
    [[1, 2, 3]]. *)
Theorem coerce_query_param_list :
  (forall (PyFloat : Type) (py_int : string -> option Z)
          (py_float : string -> option PyFloat)
          (query_params : Coerce.QueryParams) (name : string)
          (ann : Coerce.Ann) (targs : list Coerce.Ann),
      ann = Coerce.AListOf targs \/ Coerce.optional_list_of ann targs ->
      exists vs,
        Coerce._coerce_query_param py_int py_float query_params name ann
        = Py.Ret (Coerce.VList vs)
        /\ Forall2 (fun raw v =>
                      Coerce._coerce_scalar py_int py_float (Some raw)
                        (hd Coerce.AStr targs) = Py.Ret v)
                   (Coerce.getlist query_params name) vs)
  /\ Coerce.getlist [("x", "1"); ("x", "2"); ("x", "3")] "x" = ["1"; "2"; "3"]
  /\ Coerce._coerce_query_param Py.int_of_str Coerce.no_float
       [("x", "1"); ("x", "2"); ("x", "3")] "x" (Coerce.AListOf [Coerce.AInt])
     = Py.Ret (Coerce.VList [Coerce.VInt 1; Coerce.VInt 2; Coerce.VInt 3]).
Proof.
  split; [| split; reflexivity].
  intros PyFloat py_int py_float q name ann targs Hann.
  destruct (comprehension_Forall2
              (fun v => Coerce._coerce_scalar py_int py_float (Some v)
                          (hd Coerce.AStr targs))
              (Coerce.getlist q name)) as (vs & Hvs & Hall).
  { intros x. apply coerce_scalar_returns. }
  exists vs. split; [| exact Hall].
  unfold Coerce._coerce_query_param.
  assert (Hinner : match targs with a :: _ => a | [] => Coerce.AStr end
                   = hd Coerce.AStr targs) by (destruct targs; reflexivity).
  destruct Hann as [-> | (us & -> & Hus)].
  - cbn [Coerce.get_origin Coerce.is_list_origin Coerce.get_args].
    rewrite Hinner, Hvs. reflexivity.
  - unfold Coerce._unwrap_optional.
    cbn [Coerce.get_origin Coerce.is_list_origin Coerce.get_args].
    rewrite Hus.
    cbn [Coerce.get_origin Coerce.is_list_origin Coerce.get_args].
    rewrite Hinner, Hvs. reflexivity.
Qed.

(** The list rule at work on [Optional[list[int]]], with a key that other
    parameters interleave. *)
Lemma coerce_query_param_list_witness :
  exists vs,
    Coerce._coerce_query_param Py.int_of_str Coerce.no_float
      [("x", "1"); ("y", "9"); ("x", "oops"); ("x", "3")] "x"
      (Coerce.AUnion [Coerce.AListOf [Coerce.AInt]; Coerce.ANoneType])
    = Py.Ret (Coerce.VList vs)
    /\ Forall2 (fun raw v =>
                  Coerce._coerce_scalar Py.int_of_str Coerce.no_float (Some raw)
                    (hd Coerce.AStr [Coerce.AInt]) = Py.Ret v)
               (Coerce.getlist [("x", "1"); ("y", "9"); ("x", "oops"); ("x", "3")] "x")
               vs.
Proof.
  apply (proj1 coerce_query_param_list).
  right. exists [Coerce.AListOf [Coerce.AInt]; Coerce.ANoneType].
  split; reflexivity.
Defined.

(** ** The middleware stack *)

Lemma append_assoc (a b c : string) : (a +:+ b) +:+ c = a +:+ (b +:+ c).
Proof.
  induction a as [| x a IH]; [reflexivity |].
  change (String x ((a +:+ b) +:+ c) = String x (a +:+ (b +:+ c))).
  now rewrite IH.
Qed.

Lemma append_empty_r (a : string) : a +:+ "" = a.
Proof.
  induction a as [| x a IH]; [reflexivity |].
  change (String x (a +:+ "") = String x a). now rewrite IH.
Qed.

Lemma build_add_middleware (cfg : Http.Config) (env : Asgi.Env)
      (cls : Asgi.MiddlewareClass) (l : list Asgi.MiddlewareClass)
      (router : Asgi.App) :
  Asgi.build_middleware_stack cfg env (Asgi.add_middleware cls l) router
  = Asgi.instantiate cfg env cls (Asgi.build_middleware_stack cfg env l router).
Proof.
  unfold Asgi.build_middleware_stack, Asgi.add_middleware.
  simpl rev. rewrite fold_left_app. reflexivity.
Qed.

(** C1 (as written) fails: on an RPC-marked POST by an anonymous client to
    a private route, the registered stack answers with the Auth redirect,
    carrying the CSRF cookie; a chain running RPC, then Auth, then CSRF
    would have answered with the RPC reply and no cookie. *)
Lemma middleware_order_observed :
  let scope := Sample.http "POST" "/account" [("x-pp-rpc", "true")] in
  Asgi.sent (Asgi.build_middleware_stack Sample.dev Sample.env
               Asgi.user_middleware Sample.router scope Sample.anonymous)
  = [Sample.start 303
       [("location", "/signin?next=/account");
        ("set-cookie", "pp_csrf=" +:+ Sample.token +:+ "; Path=/; SameSite=Lax")];
     Sample.body ""]
  /\ Asgi.sent (Asgi.RPCMiddleware Sample.env
                  (Asgi.AuthMiddleware Sample.env
                     (Asgi.CSRFMiddleware Sample.dev Sample.env Sample.router))
                  scope Sample.anonymous)
     = [Sample.start 200 [("content-type", "application/json")]; Sample.body "{}"].
Proof. split; vm_compute; reflexivity. Qed.

(** C1 (amended): [add_middleware] puts the class it is given around the
    stack built from the earlier registrations, so the class added last
    runs first; with the four registrations of [main.py] the chain is
    Session, then CSRF token issuance, then Auth check, then RPC check,
    then the router. *)
Theorem middleware_stack_order :
  forall (cfg : Http.Config) (env : Asgi.Env) (router : Asgi.App),
    (forall cls l,
        Asgi.build_middleware_stack cfg env (Asgi.add_middleware cls l) router
        = Asgi.instantiate cfg env cls (Asgi.build_middleware_stack cfg env l router))
    /\ Asgi.user_middleware
       = [Asgi.cSessionMiddleware; Asgi.cCSRFMiddleware;
          Asgi.cAuthMiddleware; Asgi.cRPCMiddleware]
    /\ Asgi.build_middleware_stack cfg env Asgi.user_middleware router
       = Asgi.SessionMiddleware_call env
           (Asgi.CSRFMiddleware cfg env
              (Asgi.AuthMiddleware env (Asgi.RPCMiddleware env router))).
Proof.
  intros cfg env router. split; [| split].
  - intros cls l. apply build_add_middleware.
  - reflexivity.
  - unfold Asgi.user_middleware. now rewrite !build_add_middleware.
Qed.

(** ** [RPCMiddleware] *)

(** C6 (as written) fails: a POST whose [X-PP-RPC] header is the truthy
    string ["1"] is not diverted; the router answers it. *)
Lemma rpc_truthy_header_forwarded :
  let scope := Sample.http "POST" "/" [("x-pp-rpc", "1")] in
  Asgi.headers_get (Asgi.headers scope) "X-PP-RPC" = Some "1"
  /\ Py.truthy_str "1" = true
  /\ Asgi.sent (Asgi.RPCMiddleware Sample.env Sample.router scope Sample.anonymous)
     = Asgi.sent (Sample.router scope Sample.anonymous)
  /\ Asgi.sent (Asgi.RPCMiddleware Sample.env Sample.router scope Sample.anonymous)
     = [Sample.start 200 [("content-type", "text/html")]; Sample.body "<p>page</p>"]
  /\ Asgi.asgi_send Sample.env
       (fst (Asgi._handle_rpc_request Sample.env scope ∅ Sample.anonymous)) scope
     = [Sample.start 200 [("content-type", "application/json")]; Sample.body "{}"].
Proof. repeat split. Qed.

(** C6 (amended): an HTTP request whose [X-PP-RPC] header is exactly the
    string [true] and whose method is POST is answered by the RPC handler,
    called with the request and the current session contents; what it
    returns is sent as it is and the wrapped application is not called. Any
    other HTTP request goes to the wrapped application unchanged. *)
Theorem rpc_middleware_diverts :
  forall (env : Asgi.Env) (app : Asgi.App) (scope : Asgi.Scope) (w : Asgi.World),
    Asgi.is_http scope = true ->
    (Asgi.headers_get (Asgi.headers scope) "X-PP-RPC" = Some "true" ->
     Asgi.method scope = "POST" ->
     let reply := Asgi._handle_rpc_request env scope (Asgi.session w) w in
     Asgi.RPCMiddleware env app scope w
     = {| Asgi.sent := Asgi.asgi_send env (fst reply) scope;
          Asgi.raised := None;
          Asgi.world := snd reply |})
    /\ (Asgi.headers_get (Asgi.headers scope) "X-PP-RPC" <> Some "true"
        \/ Asgi.method scope <> "POST" ->
        Asgi.RPCMiddleware env app scope w = app scope w).
Proof.
  intros env app scope w Hhttp. unfold Asgi.RPCMiddleware, Asgi.is_rpc_request.
  rewrite Hhttp. simpl negb. cbv iota. split.
  - intros Hh Hm. rewrite Hh, Hm.
    rewrite bool_decide_eq_true_2 by reflexivity. simpl.
    destruct (Asgi._handle_rpc_request env scope (Asgi.session w) w).
    reflexivity.
  - intros [Hh | Hm].
    + rewrite bool_decide_eq_false_2 by assumption. reflexivity.
    + apply String.eqb_neq in Hm. rewrite Hm, andb_false_r. reflexivity.
Qed.

(** An RPC call, and an ordinary GET, through [RPCMiddleware]. *)
Lemma rpc_middleware_diverts_witness :
  Asgi.sent (Asgi.RPCMiddleware Sample.env Sample.router
               (Sample.http "POST" "/" [("x-pp-rpc", "true")]) Sample.member)
  = [Sample.start 200 [("content-type", "application/json")]; Sample.body "{}"]
  /\ Asgi.RPCMiddleware Sample.env Sample.router (Sample.http "GET" "/" [])
       Sample.member
     = Sample.router (Sample.http "GET" "/" []) Sample.member.
Proof.
  split.
  - rewrite (proj1 (rpc_middleware_diverts Sample.env Sample.router
                      (Sample.http "POST" "/" [("x-pp-rpc", "true")])
                      Sample.member eq_refl) eq_refl eq_refl).
    reflexivity.
  - apply (proj2 (rpc_middleware_diverts Sample.env Sample.router
                    (Sample.http "GET" "/" []) Sample.member eq_refl)).
    left. discriminate.
Defined.

(** ** [AuthMiddleware] *)

(** C7 (as written) fails: with [/signin] listed both as a public and as an
    auth-only route, a signed-in user asking for [/signin] is classified
    public first and reaches the router; no redirect is sent. *)
Lemma auth_public_route_wins :
  let scope := Sample.http "GET" "/signin" [] in
  let inst := Asgi.Auth_get_instance Sample.env_overlap scope Sample.member in
  Asgi.is_auth_route inst "/signin" = true
  /\ Asgi.is_authenticated inst = true
  /\ Asgi.AuthMiddleware Sample.env_overlap Sample.router scope Sample.member
     = Sample.router scope Sample.member
  /\ Asgi.sent (Asgi.AuthMiddleware Sample.env_overlap Sample.router scope Sample.member)
     = [Sample.start 200 [("content-type", "text/html")]; Sample.body "<p>page</p>"].
Proof. repeat split. Qed.

(** C7 (amended): take an HTTP request outside the static-asset prefixes,
    for which the OAuth providers produce no response and whose path is not
    a public route. If the path is an auth-only route and the user is
    authenticated, the chain ends with a 303 redirect to
    [default_signin_redirect]. If the path is not an auth-only route, is a
    private route, the user is not authenticated and no [on_auth_failure]
    hook is configured, the chain ends with a 303 redirect to
    [/signin?next=<path>]. In both cases the wrapped application is not
    called. *)
Theorem auth_middleware_redirects :
  forall (env : Asgi.Env) (app : Asgi.App) (scope : Asgi.Scope) (w : Asgi.World),
    let w' := Asgi.StateManager_init env scope w in
    let auth_inst := Asgi.Auth_get_instance env scope w' in
    let path := Asgi.path scope in
    Asgi.is_http scope = true ->
    Asgi.startswith path ["/css/"; "/js/"; "/assets/"; "/favicon.ico"] = false ->
    (Asgi.Auth_get_providers env = []
     \/ Asgi.auth_providers auth_inst (Asgi.Auth_get_providers env) = None) ->
    Asgi.is_public_route auth_inst path = false ->
    (Asgi.is_auth_route auth_inst path = true ->
     Asgi.is_authenticated auth_inst = true ->
     Asgi.AuthMiddleware env app scope w
     = {| Asgi.sent :=
            Asgi.asgi_send env
              (Http.RedirectResponse
                 (Asgi.default_signin_redirect (Asgi.settings auth_inst)) 303)
              scope;
          Asgi.raised := None;
          Asgi.world := w' |})
    /\ (Asgi.is_auth_route auth_inst path = false ->
        Asgi.is_private_route auth_inst path = true ->
        Asgi.is_authenticated auth_inst = false ->
        Asgi.on_auth_failure (Asgi.settings auth_inst) = None ->
        Asgi.AuthMiddleware env app scope w
        = {| Asgi.sent :=
               Asgi.asgi_send env
                 (Http.RedirectResponse ("/signin?next=" +:+ path) 303) scope;
             Asgi.raised := None;
             Asgi.world := w' |}).
Proof.
  intros env app scope w w' auth_inst path Hhttp Hstatic Hoauth Hpublic.
  assert (Hnone : match Asgi.Auth_get_providers env with
                  | [] => None
                  | _ :: _ => Asgi.auth_providers auth_inst (Asgi.Auth_get_providers env)
                  end = None).
  { destruct Hoauth as [-> | Hp]; [reflexivity |].
    destruct (Asgi.Auth_get_providers env); [reflexivity | exact Hp]. }
  unfold Asgi.AuthMiddleware, Asgi.static_prefixes, Asgi.respond.
  rewrite Hhttp. cbn [negb]. fold path. rewrite Hstatic.
  fold w'. fold auth_inst. rewrite Hnone, Hpublic.
  split.
  - intros Hauth Hin. rewrite Hauth, Hin. reflexivity.
  - intros Hauth Hpriv Hin Hhook. rewrite Hauth, Hin, Hpriv, Hhook.
    cbn [negb andb].
    destruct (Asgi.is_role_based (Asgi.settings auth_inst)); [| reflexivity].
    destruct (Asgi.get_required_roles auth_inst path); reflexivity.
Qed.

(** A signed-in user on [/signin], and an anonymous one on the private
    [/account], as [setup_auth] configures the application. *)
Lemma auth_middleware_redirects_witness :
  Asgi.sent (Asgi.AuthMiddleware Sample.env Sample.router
               (Sample.http "GET" "/signin" []) Sample.member)
  = [Sample.start 303 [("location", "/dashboard")]; Sample.body ""]
  /\ Asgi.sent (Asgi.AuthMiddleware Sample.env Sample.router
                  (Sample.http "GET" "/account" []) Sample.anonymous)
     = [Sample.start 303 [("location", "/signin?next=/account")]; Sample.body ""].
Proof.
  split.
  - rewrite (proj1 (auth_middleware_redirects Sample.env Sample.router
                      (Sample.http "GET" "/signin" []) Sample.member
                      eq_refl eq_refl (or_intror eq_refl) eq_refl)
                   eq_refl eq_refl).
    reflexivity.
  - rewrite (proj2 (auth_middleware_redirects Sample.env Sample.router
                      (Sample.http "GET" "/account" []) Sample.anonymous
                      eq_refl eq_refl (or_intror eq_refl) eq_refl)
                   eq_refl eq_refl eq_refl eq_refl).
    reflexivity.
Defined.

(** ** [CSRFMiddleware] *)

Lemma cookie_value_spelled (cfg : Http.Config) (csrf_token : string) :
  Asgi.cookie_value cfg csrf_token
  = "pp_csrf=" +:+ csrf_token +:+ "; Path=/; SameSite=Lax"
    +:+ (if Http.IS_PRODUCTION cfg then "; Secure" else "").
Proof.
  unfold Asgi.cookie_value. destruct (Http.IS_PRODUCTION cfg).
  - now rewrite !append_assoc.
  - now rewrite append_empty_r.
Qed.

Lemma csrf_token_for_stored (env : Asgi.Env) (w : Asgi.World) :
  Asgi.session (snd (Asgi.csrf_token_for env w)) !! "csrf_token"
  = Some (fst (Asgi.csrf_token_for env w)).
Proof.
  unfold Asgi.csrf_token_for.
  destruct (Asgi.session w !! "csrf_token") as [t |] eqn:Hs.
  - destruct (Py.truthy_str t); simpl; [exact Hs | apply lookup_insert_eq].
  - simpl. apply lookup_insert_eq.
Qed.

Lemma csrf_token_for_truthy (env : Asgi.Env) (w : Asgi.World) :
  (forall n, Asgi.token_hex env 32 n <> "") ->
  fst (Asgi.csrf_token_for env w) <> "".
Proof.
  intros Htok. unfold Asgi.csrf_token_for.
  destruct (Asgi.session w !! "csrf_token") as [t |].
  - destruct t; simpl; [apply Htok | discriminate].
  - simpl. apply Htok.
Qed.

Lemma csrf_token_for_reuse (env : Asgi.Env) (w : Asgi.World) (t : string) :
  Asgi.session w !! "csrf_token" = Some t -> t <> "" ->
  Asgi.csrf_token_for env w = (t, w).
Proof.
  intros Hs Ht. unfold Asgi.csrf_token_for. rewrite Hs.
  destruct t; [contradiction | reflexivity].
Qed.

Lemma send_wrapper_Forall2 (cfg : Http.Config) (csrf_token : string)
      (msgs : list Asgi.Message) :
  Forall2
    (fun m m' =>
       if String.eqb (Asgi.msg_type m) "http.response.start" then
         Asgi.msg_headers m'
         = Some (default [] (Asgi.msg_headers m)
                 ++ [("set-cookie", Asgi.cookie_value cfg csrf_token)])%list
         /\ Asgi.msg_type m' = Asgi.msg_type m
         /\ Asgi.msg_status m' = Asgi.msg_status m
         /\ Asgi.msg_body m' = Asgi.msg_body m
       else m' = m)
    msgs (Asgi.send_wrapper cfg csrf_token <$> msgs).
Proof.
  induction msgs as [| m msgs IH]; simpl; constructor; [| exact IH].
  unfold Asgi.send_wrapper.
  destruct (String.eqb (Asgi.msg_type m) "http.response.start"); simpl; auto.
Qed.

(** C9: on an HTTP request of any method, every [http.response.start]
    event of the wrapped application is forwarded with one header appended
    after the headers it already had, [set-cookie] with
    [pp_csrf=<token>; Path=/; SameSite=Lax] and [; Secure] in production
    only; every other event, and the rest of a start event, is forwarded
    unchanged. The token is the one the session holds, or a fresh one that
    is stored in the session; a later request on a session that still
    holds it reuses it and draws no new token. *)
Theorem csrf_cookie_appended :
  forall (cfg : Http.Config) (env : Asgi.Env) (app : Asgi.App)
         (scope : Asgi.Scope) (w : Asgi.World),
    Asgi.is_http scope = true ->
    (forall n, Asgi.token_hex env 32 n <> "") ->
    let csrf_token := fst (Asgi.csrf_token_for env w) in
    let w1 := snd (Asgi.csrf_token_for env w) in
    let inner := app scope w1 in
    let out := Asgi.CSRFMiddleware cfg env app scope w in
    let cookie :=
      "pp_csrf=" +:+ csrf_token +:+ "; Path=/; SameSite=Lax"
      +:+ (if Http.IS_PRODUCTION cfg then "; Secure" else "") in
    Forall2
      (fun m m' =>
         if String.eqb (Asgi.msg_type m) "http.response.start" then
           Asgi.msg_headers m'
           = Some (default [] (Asgi.msg_headers m) ++ [("set-cookie", cookie)])%list
           /\ Asgi.msg_type m' = Asgi.msg_type m
           /\ Asgi.msg_status m' = Asgi.msg_status m
           /\ Asgi.msg_body m' = Asgi.msg_body m
         else m' = m)
      (Asgi.sent inner) (Asgi.sent out)
    /\ Asgi.raised out = Asgi.raised inner
    /\ Asgi.world out = Asgi.world inner
    /\ Asgi.session w1 !! "csrf_token" = Some csrf_token
    /\ (forall t, Asgi.session w !! "csrf_token" = Some t -> t <> "" ->
                  csrf_token = t /\ w1 = w)
    /\ (Asgi.session w !! "csrf_token" = None
        \/ Asgi.session w !! "csrf_token" = Some "" ->
        csrf_token = Asgi.token_hex env 32 (Asgi.tokens_drawn w)
        /\ Asgi.tokens_drawn w1 = S (Asgi.tokens_drawn w))
    /\ (forall w2, Asgi.session w2 !! "csrf_token" = Some csrf_token ->
                   Asgi.csrf_token_for env w2 = (csrf_token, w2)).
Proof.
  intros cfg env app scope w Hhttp Htok csrf_token w1 inner out cookie.
  assert (Hout : out = {| Asgi.sent := Asgi.send_wrapper cfg csrf_token
                                         <$> Asgi.sent inner;
                          Asgi.raised := Asgi.raised inner;
                          Asgi.world := Asgi.world inner |}).
  { subst out inner csrf_token w1. unfold Asgi.CSRFMiddleware.
    rewrite Hhttp. cbn [negb].
    destruct (Asgi.csrf_token_for env w) as [t wt]. reflexivity. }
  rewrite Hout. cbn [Asgi.sent Asgi.raised Asgi.world].
  split; [| split; [reflexivity | split; [reflexivity | split; [| split; [| split]]]]].
  - subst cookie. rewrite <- cookie_value_spelled. apply send_wrapper_Forall2.
  - apply csrf_token_for_stored.
  - intros t Hs Ht. subst csrf_token w1.
    rewrite (csrf_token_for_reuse env w t Hs Ht). split; reflexivity.
  - intros Hs. subst csrf_token w1. unfold Asgi.csrf_token_for.
    destruct Hs as [-> | ->]; split; reflexivity.
  - intros w2 Hs. apply csrf_token_for_reuse; [exact Hs |].
    apply csrf_token_for_truthy, Htok.
Qed.

(** A first request of an anonymous client in production: the cookie is
    appended to the headers of the page. *)
Lemma csrf_cookie_appended_witness :
  Asgi.sent (Asgi.CSRFMiddleware Sample.prod Sample.env Sample.router
               (Sample.http "DELETE" "/" []) Sample.anonymous)
  = [Sample.start 200
       [("content-type", "text/html");
        ("set-cookie",
         "pp_csrf=" +:+ Sample.token +:+ "; Path=/; SameSite=Lax; Secure")];
     Sample.body "<p>page</p>"]
  /\ Asgi.session (snd (Asgi.csrf_token_for Sample.env Sample.anonymous))
       !! "csrf_token" = Some Sample.token.
Proof.
  pose proof (csrf_cookie_appended Sample.prod Sample.env Sample.router
                (Sample.http "DELETE" "/" []) Sample.anonymous eq_refl
                ltac:(intros n; discriminate)) as H.
  cbv zeta in H. destruct H as (_ & _ & _ & Hstored & _).
  split; [reflexivity | exact Hstored].
Defined.

(** ** The page handler *)

Lemma bindM_returned {A B} (m : Page.M A) (k : A -> Page.M B)
      (st st' : Page.State) (a : A) :
  m st = (Py.Ret a, st') -> Page.bindM m k st = k a st'.
Proof. intros H. unfold Page.bindM. now rewrite H. Qed.

Section PageFacts.
Context {PyFloat : Type}.
Variable py_int : string -> option Z.
Variable py_float : string -> option PyFloat.
Variable cfg : Http.Config.
Variable env : Page.Env PyFloat.

(** A successful render returns the page with its root-layout header and
    changes the state by the cache save alone. *)
Lemma render_and_cache_inv (request : Page.Request) (route_dir content : string)
      (page_metadata : Py.dict string) (props : Py.dict Page.PyObj)
      (rsc : option bool) (rttl : Z) (st st' : Page.State) (resp : Http.Response) :
  Page.render_and_cache cfg env request route_dir content page_metadata props
    rsc rttl st = (Py.Ret resp, st') ->
  exists html root,
    resp = Http.HTMLResponse html 200 [("X-PP-Root-Layout", root)]
    /\ st' = if (Page.should_cache_of cfg rsc
                 && String.eqb (Page.method request) "GET")%bool
             then snd (Page.save_cache (Page.path request) html
                         (if rttl >? 0 then rttl else Http.DEFAULT_TTL cfg) st)
             else st.
Proof.
  unfold Page.render_and_cache, Page.bindM, Page.lift, Page.ret.
  destruct (Page.transform_components env content route_dir) as [c |]; [| discriminate].
  destruct (Page.render_with_nested_layouts env c route_dir page_metadata props _ st)
    as [[html root] |]; [| discriminate].
  destruct (Page.transform_scripts env html) as [html' |]; [| discriminate].
  destruct (Page.should_cache_of cfg rsc && String.eqb (Page.method request) "GET")%bool;
    simpl; intros H; inversion H; subst; exists html', root; split; reflexivity.
Qed.

(** [make_handler] past the cache check. *)
Lemma make_handler_after_check (file_path : string) (request : Page.Request)
      (st0 st_a : Page.State) (cached : option string) :
  Page.bindM Page.reset_runtime (fun _ => Page.cache_check cfg request) st0
  = (Py.Ret cached, st_a) ->
  Page.make_handler py_int py_float cfg env file_path request st0
  = if Page.truthy_content cached
    then (Py.Ret (Http.HTMLResponse (default "" cached) 200 []), st_a)
    else if Py.endswith file_path ".py"
         then Page.bindM (Page.invoke_page py_int py_float env file_path request)
                (fun mr => Page.respond_to_result cfg env request
                             (Page.dirname env file_path) (fst mr) (snd mr)) st_a
         else Page.bindM (Page.lift (Page.load_template_file env file_path))
                (fun content =>
                   Page.render_and_cache cfg env request (Page.dirname env file_path)
                     content [] [] None 0) st_a.
Proof.
  unfold Page.make_handler, Page.bindM at 1 2 3 4, Page.reset_runtime.
  destruct (Page.cache_check cfg request _) as [[c | e] s]; intros H;
    inversion H; subst.
  destruct (Page.truthy_content cached); [reflexivity |].
  destruct (Py.endswith file_path ".py"); reflexivity.
Qed.

End PageFacts.



(** C3 (as written) fails on a tuple whose second element is not a
    mapping: for [("hi", 5)] the page content is the first element, [hi],
    not the string conversion of the tuple. *)
Lemma tuple_without_props_uses_first :
  fst (Sample.make_handler Sample.dev Sample.pair_module (Sample.hello "GET")
         Sample.cold)
  = Py.Ret (Http.HTMLResponse "<main>hi</main>" 200
              [("X-PP-Root-Layout", "src/app/layout.html")])
  /\ Page.str (Sample.page_env Sample.pair_module)
       (Page.OTuple [Page.OStr "hi"; Page.OInt 5]) = "('hi', 5)"
  /\ Page.content_and_props (Sample.page_env Sample.pair_module)
       (Page.OTuple [Page.OStr "hi"; Page.OInt 5]) = Py.Ret ("hi", []).
Proof. repeat split. Qed.

(** C3 (amended): take a request that is not served from the cache and
    whose page module returned [result]. A response object is returned
    unchanged, with no further processing; a generator or async generator
    is returned as a push stream; a tuple with at least one element is
    rendered with its first element stringified as content, and with its
    second element as layout props when that is a mapping and no layout
    props otherwise; any other value, a bare string included, is rendered
    with its string conversion as content and no layout props. *)
Theorem page_result_variants :
  forall (PyFloat : Type) (py_int : string -> option Z)
         (py_float : string -> option PyFloat)
         (cfg : Http.Config) (env : Page.Env PyFloat)
         (file_path : string) (request : Page.Request)
         (st0 st_a st_c : Page.State) (cached : option string)
         (module : Page.PageModule PyFloat) (result : Page.PyObj),
    Py.endswith file_path ".py" = true ->
    Page.bindM Page.reset_runtime (fun _ => Page.cache_check cfg request) st0
    = (Py.Ret cached, st_a) ->
    Page.truthy_content cached = false ->
    Page.invoke_page py_int py_float env file_path request st_a
    = (Py.Ret (module, result), st_c) ->
    let handled := Page.make_handler py_int py_float cfg env file_path request st0 in
    let rendered (content : string) (props : Py.dict Page.PyObj) :=
      Page.render_and_cache cfg env request (Page.dirname env file_path) content
        (Page.page_metadata_of module st_c) props
        (fst (Page.cache_policy module)) (snd (Page.cache_policy module)) st_c in
    match result with
    | Page.OResponse r => handled = (Py.Ret r, st_c)
    | Page.OStream s => handled = (Py.Ret (Http.SSE s), st_c)
    | Page.OTuple (first :: Page.ODict props :: _) =>
        handled = rendered (Page.str env first) props
    | Page.OTuple (first :: _) => handled = rendered (Page.str env first) []
    | Page.OTuple [] => True
    | Page.OStr s => handled = rendered s []
    | other => handled = rendered (Page.str env other) []
    end.
Proof.
  intros PyFloat py_int py_float cfg env file_path request st0 st_a st_c
         cached module result Hpy Hchk Hmiss Hinv handled rendered.
  subst handled rendered.
  rewrite (make_handler_after_check py_int py_float cfg env _ _ _ _ _ Hchk).
  rewrite Hmiss, Hpy. rewrite (bindM_returned _ _ _ _ _ Hinv). cbn [fst snd].
  unfold Page.respond_to_result.
  destruct (Page.cache_policy module) as [rsc rttl]. cbn [fst snd].
  destruct result as [r | s | items | d | s | z | | id]; try reflexivity.
  destruct items as [| first rest]; [exact I |].
  destruct rest as [| second rest]; [reflexivity |].
  destruct second; reflexivity.
Qed.

(** A page returning [("hi", {"title": "Hi"})]: content [hi], rendered with
    those layout props. *)
Lemma page_result_variants_witness :
  Sample.make_handler Sample.dev Sample.props_module (Sample.hello "GET") Sample.cold
  = Page.render_and_cache Sample.dev (Sample.page_env Sample.props_module)
      (Sample.hello "GET") "src/app/hello" "hi" []
      [("title", Page.OStr "Hi")] None 0 Sample.cold.
Proof.
  exact (page_result_variants Empty_set Py.int_of_str Coerce.no_float
           Sample.dev (Sample.page_env Sample.props_module)
           "src/app/hello/index.py" (Sample.hello "GET")
           Sample.cold Sample.cold Sample.cold None Sample.props_module
           (Page.OTuple [Page.OStr "hi"; Page.ODict [("title", Page.OStr "Hi")]])
           eq_refl eq_refl eq_refl eq_refl).
Defined.

(** C10 (as written) fails on a live entry whose content is the empty
    string: [if cached_resp:] is false for it, so the module is loaded and
    the page is rendered again, root-layout header included. *)
Lemma blank_cache_entry_rendered_again :
  Page.cache Sample.blank_entry !! "/hello"
  = Some {| Page.content := ""; Page.expiresAt := 2000 |}
  /\ Page.now Sample.blank_entry = 1000
  /\ fst (Sample.make_handler Sample.dev Sample.cached_module (Sample.hello "GET")
            Sample.blank_entry)
     = Py.Ret (Http.HTMLResponse "<main>hello</main>" 200
                 [("X-PP-Root-Layout", "src/app/layout.html")]).
Proof. repeat split. Qed.

(** C10 (amended): on a GET whose path has a live cache entry with
    non-empty content, the handler returns a 200 HTML response made of the
    cached content, with no header of its own, and touches nothing but the
    two request-scratch slots; the result is the same whatever the module
    loader, the page function and the renderers would do, so none of them
    runs. A freshly rendered page does carry [X-PP-Root-Layout]. *)
Theorem cache_hit_fast_path :
  forall (PyFloat : Type) (py_int : string -> option Z)
         (py_float : string -> option PyFloat)
         (cfg : Http.Config) (env : Page.Env PyFloat)
         (file_path : string) (request : Page.Request)
         (st : Page.State) (e : Page.CacheEntry),
    Page.method request = "GET" ->
    Page.cache st !! Page.path request = Some e ->
    Page.now st < Page.expiresAt e ->
    Page.content e <> "" ->
    let hit := Http.HTMLResponse (Page.content e) 200 [] in
    Page.make_handler py_int py_float cfg env file_path request st
    = (Py.Ret hit,
       {| Page.cache := Page.cache st; Page.now := Page.now st;
          Page._runtime_metadata := None;
          Page._runtime_injections := ([], []) |})
    /\ Http.header_names hit = []
    /\ (forall env' : Page.Env PyFloat,
           Page.make_handler py_int py_float cfg env' file_path request st
           = Page.make_handler py_int py_float cfg env file_path request st)
    /\ (forall route_dir content meta props rsc rttl st1 st2 resp,
           Page.render_and_cache cfg env request route_dir content meta props
             rsc rttl st1 = (Py.Ret resp, st2) ->
           In "X-PP-Root-Layout" (Http.header_names resp)).
Proof.
  intros PyFloat py_int py_float cfg env file_path request st e
         Hget Hentry Hlive Hcontent hit.
  assert (Hchk : forall env0 : Page.Env PyFloat,
             Page.make_handler py_int py_float cfg env0 file_path request st
             = (Py.Ret hit,
                {| Page.cache := Page.cache st; Page.now := Page.now st;
                   Page._runtime_metadata := None;
                   Page._runtime_injections := ([], []) |})).
  { intros env0.
    rewrite (make_handler_after_check py_int py_float cfg env0 file_path request st
               {| Page.cache := Page.cache st; Page.now := Page.now st;
                  Page._runtime_metadata := None;
                  Page._runtime_injections := ([], []) |}
               (Some (Page.content e))).
    - cbn [Page.truthy_content default]. rewrite truthy_str_nonempty.
      apply String.eqb_neq in Hcontent. now rewrite Hcontent.
    - unfold Page.bindM, Page.reset_runtime, Page.cache_check, Page.serve_cache.
      rewrite Hget. change (String.eqb "GET" "GET") with true. cbn [Page.cache Page.now].
      rewrite Hentry. apply Z.ltb_lt in Hlive. now rewrite Hlive. }
  split; [apply Hchk | split; [reflexivity | split]].
  - intros env'. now rewrite !Hchk.
  - intros route_dir content meta props rsc rttl st1 st2 resp Hr.
    apply render_and_cache_inv in Hr. destruct Hr as (html & root & -> & _).
    simpl. now left.
Qed.

(** A GET of [/hello] on a store that holds a live, non-empty entry. *)
Lemma cache_hit_fast_path_witness :
  Sample.make_handler Sample.dev Sample.cached_module (Sample.hello "GET") Sample.warm
  = (Py.Ret (Http.HTMLResponse "<main>cached</main>" 200 []), Sample.warm).
Proof.
  exact (proj1 (cache_hit_fast_path Empty_set Py.int_of_str Coerce.no_float
                  Sample.dev (Sample.page_env Sample.cached_module)
                  "src/app/hello/index.py" (Sample.hello "GET") Sample.warm
                  {| Page.content := "<main>cached</main>"; Page.expiresAt := 2000 |}
                  eq_refl eq_refl eq_refl ltac:(discriminate))).
Defined.

(** ** The 500 handler *)

(** C8: in production the outcome of the 500 handler is the same whatever
    the traceback is, so the rendered page cannot include it; outside
    production the traceback is bound to [error_trace] when the template is
    expanded. When [error.html] has been read and expanding it or composing
    the layouts raises, the exception is caught and the response is the
    inline fallback with status 500, made of the error message alone; it is
    the same for every traceback, in production or not. *)
Theorem error_page_trace_policy :
  forall (cfg : Http.Config) (env : Errors.Env) (request : Page.Request)
         (exc : Py.exn) (trace : string),
    let handled := Errors.custom_general_exception_handler cfg env request exc trace in
    let context_data :=
      {| Errors.request := request;
         Errors.error_message := Errors.str_exc env exc;
         Errors.error_trace :=
           if Http.IS_PRODUCTION cfg then None else Some trace |} in
    let fallback :=
      Http.HTMLResponse
        ("<h1>500 - Internal Server Error</h1><p>" +:+ Errors.str_exc env exc +:+ "</p>")
        500 [] in
    (Http.IS_PRODUCTION cfg = true ->
     forall trace',
       Errors.custom_general_exception_handler cfg env request exc trace' = handled)
    /\ (forall raw rendered html root,
           Errors.error_page env = Some (Py.Ret raw) ->
           Errors.render_string env raw context_data = Py.Ret rendered ->
           Errors.render_with_nested_layouts env rendered "src/app"
             [("title", "Application Error");
              ("description", "An unexpected error occurred.")] context_data
           = Py.Ret (html, root) ->
           handled = Py.Ret (Http.HTMLResponse html 500 [("X-PP-Root-Layout", root)]))
    /\ (forall raw e,
           Errors.error_page env = Some (Py.Ret raw) ->
           Errors.render_string env raw context_data = Py.Raise e ->
           handled = Py.Ret fallback)
    /\ (forall raw rendered e,
           Errors.error_page env = Some (Py.Ret raw) ->
           Errors.render_string env raw context_data = Py.Ret rendered ->
           Errors.render_with_nested_layouts env rendered "src/app"
             [("title", "Application Error");
              ("description", "An unexpected error occurred.")] context_data
           = Py.Raise e ->
           handled = Py.Ret fallback)
    /\ (Errors.error_page env = None -> handled = Py.Ret fallback).
Proof.
  intros cfg env request exc trace handled context_data fallback.
  subst handled fallback.
  unfold Errors.custom_general_exception_handler, Errors.render_error_page,
    Errors.fallback_page.
  split; [| split; [| split; [| split]]].
  - intros Hprod trace'. rewrite Hprod. reflexivity.
  - intros raw rendered html root Hpage Hr Hl. rewrite Hpage. cbn [Py.bind].
    destruct (Http.IS_PRODUCTION cfg); cbn [negb] in *; subst context_data;
      rewrite Hr; cbn [Py.bind]; rewrite Hl; reflexivity.
  - intros raw e Hpage Hr. rewrite Hpage. cbn [Py.bind].
    destruct (Http.IS_PRODUCTION cfg); cbn [negb] in *; subst context_data;
      rewrite Hr; reflexivity.
  - intros raw rendered e Hpage Hr Hl. rewrite Hpage. cbn [Py.bind].
    destruct (Http.IS_PRODUCTION cfg); cbn [negb] in *; subst context_data;
      rewrite Hr; cbn [Py.bind]; rewrite Hl; reflexivity.
  - intros Hpage. rewrite Hpage. reflexivity.
Qed.

(** ** Worked examples *)

(** The boolean words, in either case, and the two fallbacks. *)
Example coerce_bool_words :
  map (fun v => Coerce._coerce_scalar Py.int_of_str Coerce.no_float (Some v) Coerce.ABool)
      ["1"; "true"; "T"; "yes"; "Y"; "on"; "0"; "false"; "F"; "no"; "N"; "off";
       "maybe"; ""]
  = map (fun b => Py.Ret (Coerce.VBool b))
        [true; true; true; true; true; true;
         false; false; false; false; false; false; true; false].
Proof. reflexivity. Qed.

Example coerce_int_failure_keeps_text :
  Coerce._coerce_scalar Py.int_of_str Coerce.no_float (Some "abc") Coerce.AInt
  = Py.Ret (Coerce.VStr "abc")
  /\ Coerce._coerce_scalar Py.int_of_str Coerce.no_float (Some " -1_000 ")
       (Coerce.AUnion [Coerce.AInt; Coerce.ANoneType])
     = Py.Ret (Coerce.VInt (-1000)).
Proof. split; reflexivity. Qed.

(** The bare class [list] has no origin: the parameter is coerced as a
    scalar, from the last value of the key. *)
Example coerce_bare_list_is_scalar :
  Coerce._coerce_query_param Py.int_of_str Coerce.no_float
    [("x", "1"); ("x", "2")] "x" (Coerce.AClass "list")
  = Py.Ret (Coerce.VStr "2").
Proof. reflexivity. Qed.

(** An empty tuple has no first element: [result[0]] raises. *)
Example empty_tuple_raises :
  fst (Sample.make_handler Sample.dev
         (Sample.module_returning (Page.OTuple []) None)
         (Sample.hello "GET") Sample.cold)
  = Py.Raise Py.IndexError.
Proof. reflexivity. Qed.

(** A POST is rendered but never saved, even with [enabled=True]. *)
Example post_is_not_saved :
  Page.cache (snd (Sample.make_handler Sample.dev Sample.cached_module
                     (Sample.hello "POST") Sample.cold)) !! "/hello" = None.
Proof. reflexivity. Qed.

(** Two requests of one client through the registered stack: the second
    carries the token minted by the first and no new token is drawn. *)
Example csrf_token_reused_across_requests :
  let stack := Asgi.build_middleware_stack Sample.prod Sample.env
                 Asgi.user_middleware Sample.router in
  let first := stack (Sample.http "GET" "/" []) Sample.anonymous in
  let second := stack (Sample.http "POST" "/" []) (Asgi.world first) in
  Asgi.tokens_drawn (Asgi.world first) = 1%nat
  /\ Asgi.tokens_drawn (Asgi.world second) = 1%nat
  /\ Asgi.sent second
     = [Sample.start 200
          [("content-type", "text/html");
           ("set-cookie",
            "pp_csrf=" +:+ Sample.token +:+ "; Path=/; SameSite=Lax; Secure")];
        Sample.body "<p>page</p>"].
Proof. repeat split. Qed.

(** The error page with a template that prints the trace when it is bound:
    the trace shows outside production only; with a failing template engine
    the fallback shows the message alone. *)
Example error_page_in_three_settings :
  let failure := Py.OtherError "boom" in
  let trace := "Traceback (most recent call last): ..." in
  Errors.custom_general_exception_handler Sample.prod
    (Sample.error_env Sample.print_error) (Sample.hello "GET") failure trace
  = Py.Ret (Http.HTMLResponse "<main><h1>boom</h1></main>" 500
              [("X-PP-Root-Layout", "src/app/layout.html")])
  /\ Errors.custom_general_exception_handler Sample.dev
       (Sample.error_env Sample.print_error) (Sample.hello "GET") failure trace
     = Py.Ret (Http.HTMLResponse
                 "<main><h1>boom</h1>Traceback (most recent call last): ...</main>"
                 500 [("X-PP-Root-Layout", "src/app/layout.html")])
  /\ Errors.custom_general_exception_handler Sample.dev
       (Sample.error_env Sample.broken) (Sample.hello "GET") failure trace
     = Py.Ret (Http.HTMLResponse "<h1>500 - Internal Server Error</h1><p>boom</p>"
                 500 []).
Proof. repeat split. Qed.

(** * Further properties of the request pipeline *)

(** ** Middleware *)

(** X1: a scope that is not HTTP (a websocket, the lifespan protocol) goes
    through the three interceptors untouched: the wrapped application gets
    the scope and the world as they came, no token is minted and no event
    is rewritten. *)
Theorem non_http_bypasses_interceptors :
  forall (cfg : Http.Config) (env : Asgi.Env) (app : Asgi.App)
         (scope : Asgi.Scope) (w : Asgi.World),
    Asgi.scope_type scope <> "http" ->
    Asgi.CSRFMiddleware cfg env (Asgi.AuthMiddleware env (Asgi.RPCMiddleware env app))
      scope w
    = app scope w.
Proof.
  intros cfg env app scope w Hty.
  assert (Hhttp : Asgi.is_http scope = false).
  { unfold Asgi.is_http. now apply String.eqb_neq. }
  unfold Asgi.CSRFMiddleware, Asgi.AuthMiddleware, Asgi.RPCMiddleware.
  now rewrite Hhttp.
Qed.

(** A websocket handshake of an anonymous client on a private route. *)
Lemma non_http_bypasses_interceptors_witness :
  let scope := {| Asgi.scope_type := "websocket"; Asgi.method := "GET";
                  Asgi.path := "/account"; Asgi.headers := [] |} in
  Asgi.CSRFMiddleware Sample.prod Sample.env
    (Asgi.AuthMiddleware Sample.env (Asgi.RPCMiddleware Sample.env Sample.router))
    scope Sample.anonymous
  = Sample.router scope Sample.anonymous.
Proof.
  intros scope.
  apply (non_http_bypasses_interceptors Sample.prod Sample.env Sample.router
           scope Sample.anonymous).
  discriminate.
Defined.

(** X2: issuing the CSRF token leaves every other key of the session as it
    was, draws at most one token, and draws none when the session already
    holds a non-empty one. *)
Theorem csrf_token_for_frame :
  forall (env : Asgi.Env) (w : Asgi.World),
    let w1 := snd (Asgi.csrf_token_for env w) in
    (forall k, k <> "csrf_token" -> Asgi.session w1 !! k = Asgi.session w !! k)
    /\ (Asgi.tokens_drawn w1 = Asgi.tokens_drawn w
        \/ Asgi.tokens_drawn w1 = S (Asgi.tokens_drawn w))
    /\ (forall t, Asgi.session w !! "csrf_token" = Some t -> t <> "" ->
                  Asgi.tokens_drawn w1 = Asgi.tokens_drawn w).
Proof.
  intros env w w1. subst w1. unfold Asgi.csrf_token_for.
  destruct (Asgi.session w !! "csrf_token") as [t |] eqn:Hs.
  - destruct t as [| c t]; cbn [Py.truthy_str snd Asgi.session Asgi.tokens_drawn].
    + split; [| split].
      * intros k Hk. now apply lookup_insert_ne.
      * now right.
      * intros t Heq Ht. inversion Heq; subst. contradiction.
    + split; [| split]; auto.
  - cbn [snd Asgi.session Asgi.tokens_drawn]. split; [| split].
    + intros k Hk. now apply lookup_insert_ne.
    + now right.
    + intros t Heq. discriminate.
Qed.

Section AuthFacts.
Variable env : Asgi.Env.
Variable app : Asgi.App.
Variable scope : Asgi.Scope.
Variable w : Asgi.World.

Let w' := Asgi.StateManager_init env scope w.
Let auth_inst := Asgi.Auth_get_instance env scope w'.
Let path := Asgi.path scope.

(** A request that reaches the route classification: it is HTTP, outside
    the static-asset prefixes, and no OAuth provider answers it. *)
Lemma auth_classified :
  Asgi.is_http scope = true ->
  Asgi.startswith path ["/css/"; "/js/"; "/assets/"; "/favicon.ico"] = false ->
  (Asgi.Auth_get_providers env = []
   \/ Asgi.auth_providers auth_inst (Asgi.Auth_get_providers env) = None) ->
  Asgi.AuthMiddleware env app scope w
  = if Asgi.is_public_route auth_inst path then app scope w'
    else if Asgi.is_auth_route auth_inst path then
           if Asgi.is_authenticated auth_inst
           then Asgi.respond env
                  (Http.RedirectResponse
                     (Asgi.default_signin_redirect (Asgi.settings auth_inst)) 303)
                  scope w'
           else app scope w'
         else
           match
             (if Asgi.is_role_based (Asgi.settings auth_inst) then
                match Asgi.get_required_roles auth_inst path with
                | [] => None
                | required_roles =>
                    if negb (Asgi.is_authenticated auth_inst) then
                      Some (Http.RedirectResponse ("/signin?next=" +:+ path) 303)
                    else if negb (Asgi.check_role auth_inst
                                    (Asgi.get_payload auth_inst) required_roles)
                         then Some (Http.RedirectResponse "/unauthorized" 303)
                         else None
                end
              else None)
           with
           | Some r => Asgi.respond env r scope w'
           | None =>
               if (Asgi.is_private_route auth_inst path
                   && negb (Asgi.is_authenticated auth_inst))%bool then
                 match Asgi.on_auth_failure (Asgi.settings auth_inst) with
                 | Some hook => Asgi.respond env (hook scope) scope w'
                 | None =>
                     Asgi.respond env
                       (Http.RedirectResponse ("/signin?next=" +:+ path) 303)
                       scope w'
                 end
               else app scope w'
           end.
Proof.
  intros Hhttp Hstatic Hoauth.
  assert (Hnone : match Asgi.Auth_get_providers env with
                  | [] => None
                  | _ :: _ => Asgi.auth_providers auth_inst (Asgi.Auth_get_providers env)
                  end = None).
  { destruct Hoauth as [-> | Hp]; [reflexivity |].
    destruct (Asgi.Auth_get_providers env); [reflexivity | exact Hp]. }
  unfold Asgi.AuthMiddleware, Asgi.static_prefixes.
  rewrite Hhttp. cbn [negb]. fold path. rewrite Hstatic.
  fold w'. fold auth_inst. rewrite Hnone. reflexivity.
Qed.

End AuthFacts.

(** X3: on a role-gated route (role-based access is on and the path asks
    for roles) that is neither public nor auth-only, an unauthenticated
    request is redirected (303) to [/signin?next=<path>] even when an
    [on_auth_failure] hook is configured; an authenticated user whose role
    check fails is redirected (303) to [/unauthorized]; an authenticated
    user who passes it reaches the wrapped application. *)
Theorem auth_role_gate :
  forall (env : Asgi.Env) (app : Asgi.App) (scope : Asgi.Scope) (w : Asgi.World),
    let w' := Asgi.StateManager_init env scope w in
    let auth_inst := Asgi.Auth_get_instance env scope w' in
    let path := Asgi.path scope in
    Asgi.is_http scope = true ->
    Asgi.startswith path ["/css/"; "/js/"; "/assets/"; "/favicon.ico"] = false ->
    (Asgi.Auth_get_providers env = []
     \/ Asgi.auth_providers auth_inst (Asgi.Auth_get_providers env) = None) ->
    Asgi.is_public_route auth_inst path = false ->
    Asgi.is_auth_route auth_inst path = false ->
    Asgi.is_role_based (Asgi.settings auth_inst) = true ->
    Asgi.get_required_roles auth_inst path <> [] ->
    let redirect url :=
      {| Asgi.sent := Asgi.asgi_send env (Http.RedirectResponse url 303) scope;
         Asgi.raised := None;
         Asgi.world := w' |} in
    (Asgi.is_authenticated auth_inst = false ->
     Asgi.AuthMiddleware env app scope w = redirect ("/signin?next=" +:+ path))
    /\ (Asgi.is_authenticated auth_inst = true ->
        Asgi.check_role auth_inst (Asgi.get_payload auth_inst)
          (Asgi.get_required_roles auth_inst path) = false ->
        Asgi.AuthMiddleware env app scope w = redirect "/unauthorized")
    /\ (Asgi.is_authenticated auth_inst = true ->
        Asgi.check_role auth_inst (Asgi.get_payload auth_inst)
          (Asgi.get_required_roles auth_inst path) = true ->
        Asgi.AuthMiddleware env app scope w = app scope w').
Proof.
  intros env app scope w w' auth_inst path Hhttp Hstatic Hoauth Hpub Hauth
         Hrb Hroles redirect.
  rewrite (auth_classified env app scope w Hhttp Hstatic Hoauth).
  fold w'. fold auth_inst. fold path. rewrite Hpub, Hauth, Hrb.
  destruct (Asgi.get_required_roles auth_inst path) as [| r roles] eqn:Hreq;
    [contradiction |].
  split; [| split].
  - intros Hin. rewrite Hin. reflexivity.
  - intros Hin Hrole. rewrite Hin, Hrole. reflexivity.
  - intros Hin Hrole. rewrite Hin, Hrole. cbn [negb andb].
    now rewrite andb_false_r.
Qed.

(** [/admin] asks for the role [admin]: an anonymous client is sent to the
    sign-in page although a hook is configured, a plain member is sent to
    [/unauthorized], an administrator gets the page. *)
Lemma auth_role_gate_witness :
  let env := Fixtures.role_env (Some Fixtures.login_hook) in
  let admin := {| Asgi.session := {["user" := "ada"; "role" := "admin"]};
                  Asgi.tokens_drawn := 0 |} in
  Asgi.sent (Asgi.AuthMiddleware env Sample.router (Sample.http "GET" "/admin" [])
               Sample.anonymous)
  = [Sample.start 303 [("location", "/signin?next=/admin")]; Sample.body ""]
  /\ Asgi.sent (Asgi.AuthMiddleware env Sample.router (Sample.http "GET" "/admin" [])
                  Sample.member)
     = [Sample.start 303 [("location", "/unauthorized")]; Sample.body ""]
  /\ Asgi.AuthMiddleware env Sample.router (Sample.http "GET" "/admin" []) admin
     = Sample.router (Sample.http "GET" "/admin" []) admin.
Proof.
  intros env admin.
  assert (Hroles : forall w,
             Asgi.get_required_roles
               (Asgi.Auth_get_instance env (Sample.http "GET" "/admin" [])
                  (Asgi.StateManager_init env (Sample.http "GET" "/admin" []) w))
               (Asgi.path (Sample.http "GET" "/admin" [])) <> [])
    by (intros w0; discriminate).
  split; [| split].
  - rewrite (proj1 (auth_role_gate env Sample.router (Sample.http "GET" "/admin" [])
                      Sample.anonymous eq_refl eq_refl (or_introl eq_refl)
                      eq_refl eq_refl eq_refl (Hroles _)) eq_refl).
    reflexivity.
  - rewrite (proj1 (proj2 (auth_role_gate env Sample.router
                             (Sample.http "GET" "/admin" []) Sample.member
                             eq_refl eq_refl (or_introl eq_refl)
                             eq_refl eq_refl eq_refl (Hroles _)))
                   eq_refl eq_refl).
    reflexivity.
  - exact (proj2 (proj2 (auth_role_gate env Sample.router
                           (Sample.http "GET" "/admin" []) admin
                           eq_refl eq_refl (or_introl eq_refl)
                           eq_refl eq_refl eq_refl (Hroles _)))
                 eq_refl eq_refl).
Defined.

(** X4: an authenticated request that reaches the route classification is
    never sent to the sign-in page and never handed to the
    [on_auth_failure] hook: it reaches the wrapped application, or is
    redirected to [default_signin_redirect] (from an auth-only route), or
    to [/unauthorized] (a failed role check). *)
Theorem auth_authenticated_outcomes :
  forall (env : Asgi.Env) (app : Asgi.App) (scope : Asgi.Scope) (w : Asgi.World),
    let w' := Asgi.StateManager_init env scope w in
    let auth_inst := Asgi.Auth_get_instance env scope w' in
    let path := Asgi.path scope in
    Asgi.is_http scope = true ->
    Asgi.startswith path ["/css/"; "/js/"; "/assets/"; "/favicon.ico"] = false ->
    (Asgi.Auth_get_providers env = []
     \/ Asgi.auth_providers auth_inst (Asgi.Auth_get_providers env) = None) ->
    Asgi.is_authenticated auth_inst = true ->
    let redirect url :=
      {| Asgi.sent := Asgi.asgi_send env (Http.RedirectResponse url 303) scope;
         Asgi.raised := None;
         Asgi.world := w' |} in
    Asgi.AuthMiddleware env app scope w = app scope w'
    \/ Asgi.AuthMiddleware env app scope w
       = redirect (Asgi.default_signin_redirect (Asgi.settings auth_inst))
    \/ Asgi.AuthMiddleware env app scope w = redirect "/unauthorized".
Proof.
  intros env app scope w w' auth_inst path Hhttp Hstatic Hoauth Hin redirect.
  rewrite (auth_classified env app scope w Hhttp Hstatic Hoauth).
  fold w'. fold auth_inst. fold path. rewrite Hin. cbn [negb].
  rewrite andb_false_r.
  destruct (Asgi.is_public_route auth_inst path); [now left |].
  destruct (Asgi.is_auth_route auth_inst path); [right; now left |].
  destruct (Asgi.is_role_based (Asgi.settings auth_inst)); [| now left].
  destruct (Asgi.get_required_roles auth_inst path); [now left |].
  destruct (Asgi.check_role auth_inst _ _); cbn [negb]; [now left |].
  right. now right.
Qed.

(** A signed-in member on a private page. *)
Lemma auth_authenticated_outcomes_witness :
  Asgi.AuthMiddleware Sample.env Sample.router (Sample.http "GET" "/account" [])
    Sample.member
  = Sample.router (Sample.http "GET" "/account" []) Sample.member.
Proof.
  destruct (auth_authenticated_outcomes Sample.env Sample.router
              (Sample.http "GET" "/account" []) Sample.member
              eq_refl eq_refl (or_intror eq_refl) eq_refl) as [H | [H | H]].
  - exact H.
  - discriminate H.
  - discriminate H.
Defined.

(** X5: on a private route that is neither public, auth-only nor
    role-gated, an unauthenticated request is answered by the configured
    [on_auth_failure] hook, called with the request; the wrapped
    application is not called. *)
Theorem auth_failure_hook :
  forall (env : Asgi.Env) (app : Asgi.App) (scope : Asgi.Scope) (w : Asgi.World)
         (hook : Asgi.Scope -> Http.Response),
    let w' := Asgi.StateManager_init env scope w in
    let auth_inst := Asgi.Auth_get_instance env scope w' in
    let path := Asgi.path scope in
    Asgi.is_http scope = true ->
    Asgi.startswith path ["/css/"; "/js/"; "/assets/"; "/favicon.ico"] = false ->
    (Asgi.Auth_get_providers env = []
     \/ Asgi.auth_providers auth_inst (Asgi.Auth_get_providers env) = None) ->
    Asgi.is_public_route auth_inst path = false ->
    Asgi.is_auth_route auth_inst path = false ->
    (Asgi.is_role_based (Asgi.settings auth_inst) = false
     \/ Asgi.get_required_roles auth_inst path = []) ->
    Asgi.is_private_route auth_inst path = true ->
    Asgi.is_authenticated auth_inst = false ->
    Asgi.on_auth_failure (Asgi.settings auth_inst) = Some hook ->
    Asgi.AuthMiddleware env app scope w
    = {| Asgi.sent := Asgi.asgi_send env (hook scope) scope;
         Asgi.raised := None;
         Asgi.world := w' |}.
Proof.
  intros env app scope w hook w' auth_inst path Hhttp Hstatic Hoauth Hpub Hauth
         Hgate Hpriv Hin Hhook.
  rewrite (auth_classified env app scope w Hhttp Hstatic Hoauth).
  fold w'. fold auth_inst. fold path.
  rewrite Hpub, Hauth, Hpriv, Hin, Hhook. cbn [negb andb].
  destruct Hgate as [-> | ->]; [reflexivity |].
  destruct (Asgi.is_role_based (Asgi.settings auth_inst)); reflexivity.
Qed.

(** [/account] is private and asks for no role: the hook answers. *)
Lemma auth_failure_hook_witness :
  Asgi.sent (Asgi.AuthMiddleware (Fixtures.role_env (Some Fixtures.login_hook))
               Sample.router (Sample.http "GET" "/account" []) Sample.anonymous)
  = [Sample.start 303 [("location", "/custom-login")]; Sample.body ""].
Proof.
  rewrite (auth_failure_hook (Fixtures.role_env (Some Fixtures.login_hook))
             Sample.router (Sample.http "GET" "/account" []) Sample.anonymous
             Fixtures.login_hook eq_refl eq_refl (or_introl eq_refl)
             eq_refl eq_refl (or_intror eq_refl) eq_refl eq_refl eq_refl).
  reflexivity.
Defined.

(** X6: Auth runs before RPC but lets public routes through unexamined, so
    an RPC call (POST with [X-PP-RPC: true]) on a public path is answered
    by the RPC handler whether or not the client is authenticated. *)
Theorem rpc_on_public_route_skips_auth :
  forall (env : Asgi.Env) (app : Asgi.App) (scope : Asgi.Scope) (w : Asgi.World),
    let w' := Asgi.StateManager_init env scope w in
    let auth_inst := Asgi.Auth_get_instance env scope w' in
    let path := Asgi.path scope in
    Asgi.is_http scope = true ->
    Asgi.startswith path ["/css/"; "/js/"; "/assets/"; "/favicon.ico"] = false ->
    (Asgi.Auth_get_providers env = []
     \/ Asgi.auth_providers auth_inst (Asgi.Auth_get_providers env) = None) ->
    Asgi.is_public_route auth_inst path = true ->
    Asgi.headers_get (Asgi.headers scope) "X-PP-RPC" = Some "true" ->
    Asgi.method scope = "POST" ->
    let reply := Asgi._handle_rpc_request env scope (Asgi.session w') w' in
    Asgi.AuthMiddleware env (Asgi.RPCMiddleware env app) scope w
    = {| Asgi.sent := Asgi.asgi_send env (fst reply) scope;
         Asgi.raised := None;
         Asgi.world := snd reply |}.
Proof.
  intros env app scope w w' auth_inst path Hhttp Hstatic Hoauth Hpub Hh Hm reply.
  rewrite (auth_classified env _ scope w Hhttp Hstatic Hoauth).
  fold w'. fold auth_inst. fold path. rewrite Hpub.
  unfold Asgi.RPCMiddleware, Asgi.is_rpc_request. rewrite Hhttp, Hh, Hm.
  rewrite bool_decide_eq_true_2 by reflexivity. cbn [negb andb].
  change (String.eqb "POST" "POST") with true. cbv iota.
  subst reply. destruct (Asgi._handle_rpc_request env scope (Asgi.session w') w').
  reflexivity.
Qed.

(** An anonymous RPC call posted to the public root page. *)
Lemma rpc_on_public_route_skips_auth_witness :
  Asgi.sent (Asgi.AuthMiddleware Sample.env (Asgi.RPCMiddleware Sample.env Sample.router)
               (Sample.http "POST" "/" [("x-pp-rpc", "true")]) Sample.anonymous)
  = [Sample.start 200 [("content-type", "application/json")]; Sample.body "{}"].
Proof.
  rewrite (rpc_on_public_route_skips_auth Sample.env Sample.router
             (Sample.http "POST" "/" [("x-pp-rpc", "true")]) Sample.anonymous
             eq_refl eq_refl (or_intror eq_refl) eq_refl eq_refl eq_refl).
  reflexivity.
Defined.

(** ** Binding query values to the page function *)

Lemma comprehension_returns {A B} (f : A -> Py.Exc B) (l : list A) :
  (forall x, Py.returns (f x)) -> Py.returns (Py.comprehension f l).
Proof.
  intros Hf. destruct (comprehension_Forall2 f l Hf) as (ys & Hys & _).
  now exists ys.
Qed.

Lemma coerce_query_param_returns {PyFloat : Type} (py_int : string -> option Z)
      (py_float : string -> option PyFloat) (q : Coerce.QueryParams)
      (name : string) (ann : Coerce.Ann) :
  Py.returns (Coerce._coerce_query_param py_int py_float q name ann).
Proof.
  unfold Coerce._coerce_query_param.
  assert (Hlist : forall inner,
             Py.returns
               (l <- Py.comprehension
                       (fun v => Coerce._coerce_scalar py_int py_float (Some v) inner)
                       (Coerce.getlist q name) ;;;
                Py.Ret (Coerce.VList l))).
  { intros inner.
    destruct (comprehension_returns
                (fun v => Coerce._coerce_scalar py_int py_float (Some v) inner)
                (Coerce.getlist q name)) as (l & Hl).
    - intros x. apply coerce_scalar_returns.
    - rewrite Hl. now exists (Coerce.VList l). }
  destruct (Coerce.is_list_origin (Coerce.get_origin ann)); [apply Hlist |].
  destruct (Coerce.is_list_origin (Coerce.get_origin (Coerce._unwrap_optional ann)));
    [apply Hlist | apply coerce_scalar_returns].
Qed.

Lemma dict_get_set {V} (d : Py.dict V) (k k' : string) (v : V) :
  Py.dict_get (Py.dict_set d k v) k'
  = if String.eqb k k' then Some v else Py.dict_get d k'.
Proof.
  unfold Py.dict_get. induction d as [| [k0 v0] d IH]; simpl.
  - destruct (String.eqb k k'); reflexivity.
  - destruct (String.eqb k0 k) eqn:E0; simpl.
    + apply String.eqb_eq in E0. subst k0.
      destruct (String.eqb k k'); reflexivity.
    + destruct (String.eqb k0 k') eqn:E1; simpl.
      * apply String.eqb_eq in E1. subst k0.
        rewrite String.eqb_sym in E0. now rewrite E0.
      * exact IH.
Qed.

Lemma dict_contains_get {V} (d : Py.dict V) (k : string) :
  Py.dict_contains d k
  = match Py.dict_get d k with Some _ => true | None => false end.
Proof.
  unfold Py.dict_contains, Py.dict_get. induction d as [| [k0 v0] d IH]; simpl.
  - reflexivity.
  - destruct (String.eqb k0 k); simpl; [reflexivity | exact IH].
Qed.

(** X7: binding never fails: [_coerce_query_param] returns a value for
    every annotation and every query string, and so does the loop that
    fills the keyword arguments, whatever the signature. *)
Theorem query_binding_never_raises :
  forall (PyFloat : Type) (py_int : string -> option Z)
         (py_float : string -> option PyFloat) (request : Page.Request),
    (forall name ann,
        exists v,
          Coerce._coerce_query_param py_int py_float (Page.query_params request)
            name ann = Py.Ret v)
    /\ (forall params call_kwargs,
           exists kw,
             Page.bind_parameters py_int py_float request call_kwargs params
             = Py.Ret kw).
Proof.
  intros PyFloat py_int py_float request. split.
  - intros name ann. apply coerce_query_param_returns.
  - induction params as [| p ps IH]; intros kw; simpl; [eauto |].
    unfold Page.bind_parameter.
    destruct (Py.dict_contains kw (Page.name p)); [apply IH |].
    destruct (Py.in_tuple (Page.name p) ["kwargs"]); [apply IH |].
    assert (Hbind :
              exists kw',
                (if Coerce.contains (Page.query_params request) (Page.name p)
                 then v <- Coerce._coerce_query_param py_int py_float
                             (Page.query_params request) (Page.name p)
                             (Page.annotation p) ;;;
                      Py.Ret (Py.dict_set kw (Page.name p) (Page.ArgValue v))
                 else Py.Ret kw) = Py.Ret kw').
    { destruct (Coerce.contains _ _); [| eauto].
      destruct (coerce_query_param_returns py_int py_float
                  (Page.query_params request) (Page.name p) (Page.annotation p))
        as (v & ->).
      simpl. eauto. }
    destruct Hbind as (kw' & Hkw').
    destruct (Page.kind p); try apply IH; rewrite Hkw'; simpl; apply IH.
Qed.

(** X9: an annotation that, once [Optional] is unwrapped, is none of [int],
    [float] and [bool] (a class, a generic alias, a union of several
    types) leaves the value as the string it was. *)
Theorem coerce_scalar_unknown_annotation :
  forall (PyFloat : Type) (py_int : string -> option Z)
         (py_float : string -> option PyFloat)
         (value : string) (annotation : Coerce.Ann),
    Coerce._unwrap_optional annotation <> Coerce.AInt ->
    Coerce._unwrap_optional annotation <> Coerce.AFloat ->
    Coerce._unwrap_optional annotation <> Coerce.ABool ->
    Coerce._coerce_scalar py_int py_float (Some value) annotation
    = Py.Ret (Coerce.VStr value).
Proof.
  intros PyFloat py_int py_float value annotation Hi Hf Hb.
  unfold Coerce._coerce_scalar.
  destruct (Coerce._unwrap_optional annotation); try reflexivity; contradiction.
Qed.

(** A date class, and a union of two types, keep the text. *)
Lemma coerce_scalar_unknown_annotation_witness :
  Coerce._coerce_scalar Py.int_of_str Coerce.no_float (Some "2024-01-31")
    (Coerce.AClass "date") = Py.Ret (Coerce.VStr "2024-01-31")
  /\ Coerce._coerce_scalar Py.int_of_str Coerce.no_float (Some "7")
       (Coerce.AUnion [Coerce.AInt; Coerce.AStr]) = Py.Ret (Coerce.VStr "7").
Proof.
  split.
  - apply coerce_scalar_unknown_annotation; discriminate.
  - apply coerce_scalar_unknown_annotation; discriminate.
Defined.

(** X10: [Optional[T]], and a union with [None] in any position among
    its members, coerces a value exactly as [T] does, for every [T] that is
    not itself a union. *)
Theorem coerce_scalar_optional_as_inner :
  forall (PyFloat : Type) (py_int : string -> option Z)
         (py_float : string -> option PyFloat)
         (value : option string) (inner : Coerce.Ann) (members : list Coerce.Ann),
    Coerce.get_origin inner <> Some Coerce.OUnion ->
    List.filter (fun a => negb (Coerce.is_NoneType a)) members = [inner] ->
    Coerce._coerce_scalar py_int py_float value (Coerce.AUnion members)
    = Coerce._coerce_scalar py_int py_float value inner.
Proof.
  intros PyFloat py_int py_float value inner members Hinner Hmembers.
  unfold Coerce._coerce_scalar. destruct value as [v |]; [| reflexivity].
  assert (Hu : Coerce._unwrap_optional (Coerce.AUnion members) = inner).
  { unfold Coerce._unwrap_optional. simpl. now rewrite Hmembers. }
  assert (Hi : Coerce._unwrap_optional inner = inner).
  { unfold Coerce._unwrap_optional.
    destruct inner; try reflexivity. simpl in Hinner. contradiction. }
  now rewrite Hu, Hi.
Qed.

(** [Union[None, int]] parses like [int]. *)
Lemma coerce_scalar_optional_as_inner_witness :
  Coerce._coerce_scalar Py.int_of_str Coerce.no_float (Some "42")
    (Coerce.AUnion [Coerce.ANoneType; Coerce.AInt])
  = Coerce._coerce_scalar Py.int_of_str Coerce.no_float (Some "42") Coerce.AInt.
Proof.
  apply coerce_scalar_optional_as_inner; [discriminate | reflexivity].
Defined.

Lemma find_none_of_all_false {A} (f : A -> bool) (l : list A) :
  (forall x, In x l -> f x = false) -> find f l = None.
Proof.
  induction l as [| a l IH]; intros H; [reflexivity |]. cbn [find].
  rewrite (H a (or_introl eq_refl)). apply IH. intros x Hx. apply H. now right.
Qed.

Section BindFacts.
Context {PyFloat : Type}.
Variable py_int : string -> option Z.
Variable py_float : string -> option PyFloat.
Variable request : Page.Request.

(** The parameter that supplies the keyword [n]: it has that name, is not
    called [kwargs], is not variadic, and the query string has the key. *)
Let supplies (n : string) (p : Page.Param) : bool :=
  (String.eqb (Page.name p) n
   && negb (String.eqb n "kwargs")
   && match Page.kind p with
      | Page.VAR_POSITIONAL | Page.VAR_KEYWORD => false
      | _ => true
      end
   && Coerce.contains (Page.query_params request) n)%bool.

Lemma in_tuple_singleton (x y : string) :
  Py.in_tuple x [y] = String.eqb x y.
Proof. unfold Py.in_tuple. simpl. apply orb_false_r. Qed.

Lemma bind_parameters_get (params : list Page.Param) :
  forall kw : Py.dict (Page.Arg PyFloat),
  exists kw',
    Page.bind_parameters py_int py_float request kw params = Py.Ret kw'
    /\ forall n,
        match Py.dict_get kw n with
        | Some a => Py.dict_get kw' n = Some a
        | None =>
            match find (supplies n) params with
            | Some p =>
                exists v,
                  Coerce._coerce_query_param py_int py_float
                    (Page.query_params request) n (Page.annotation p) = Py.Ret v
                  /\ Py.dict_get kw' n = Some (Page.ArgValue v)
            | None => Py.dict_get kw' n = None
            end
        end.
Proof.
  induction params as [| p ps IH]; intros kw.
  - exists kw. split; [reflexivity |]. intros n.
    destruct (Py.dict_get kw n); reflexivity.
  - cbn [Page.bind_parameters].
    (* a turn of the loop that binds nothing *)
    assert (Hskip :
              (forall n, Py.dict_get kw n = None -> supplies n p = false) ->
              exists kw',
                Page.bind_parameters py_int py_float request kw ps = Py.Ret kw'
                /\ forall n,
                    match Py.dict_get kw n with
                    | Some a => Py.dict_get kw' n = Some a
                    | None =>
                        match find (supplies n) (p :: ps) with
                        | Some p0 =>
                            exists v,
                              Coerce._coerce_query_param py_int py_float
                                (Page.query_params request) n (Page.annotation p0)
                              = Py.Ret v
                              /\ Py.dict_get kw' n = Some (Page.ArgValue v)
                        | None => Py.dict_get kw' n = None
                        end
                    end).
    { intros Hno. destruct (IH kw) as (kw' & Hrun & Hget).
      exists kw'. split; [exact Hrun |]. intros n. specialize (Hget n).
      destruct (Py.dict_get kw n) eqn:Hn; [exact Hget |].
      cbn [find]. now rewrite (Hno n Hn). }
    unfold Page.bind_parameter.
    rewrite dict_contains_get, in_tuple_singleton.
    destruct (Py.dict_get kw (Page.name p)) as [a0 |] eqn:Hown.
    { apply Hskip. intros n Hn. unfold supplies.
      destruct (String.eqb (Page.name p) n) eqn:E; [| reflexivity].
      apply String.eqb_eq in E. subst n. congruence. }
    destruct (String.eqb (Page.name p) "kwargs") eqn:Hkw.
    { apply Hskip. intros n Hn. unfold supplies.
      destruct (String.eqb (Page.name p) n) eqn:E; [| reflexivity].
      apply String.eqb_eq in E. subst n. now rewrite Hkw. }
    destruct (Coerce.contains (Page.query_params request) (Page.name p)) eqn:Hq.
    2:{ assert (Hno : forall n, Py.dict_get kw n = None -> supplies n p = false).
        { intros n Hn. unfold supplies.
          destruct (String.eqb (Page.name p) n) eqn:E; [| reflexivity].
          apply String.eqb_eq in E. subst n. rewrite Hq. apply andb_false_r. }
        destruct (Page.kind p); apply Hskip; exact Hno. }
    destruct (coerce_query_param_returns py_int py_float (Page.query_params request)
                (Page.name p) (Page.annotation p)) as (v & Hv).
    rewrite Hv. cbn [Py.bind].
    destruct (Page.kind p) eqn:Hkind;
      try (apply Hskip; intros n Hn; unfold supplies; rewrite Hkind;
           rewrite andb_false_r; reflexivity);
      (destruct (IH (Py.dict_set kw (Page.name p) (Page.ArgValue v)))
         as (kw' & Hrun & Hget);
       exists kw'; split; [exact Hrun |]; intros n; specialize (Hget n);
       rewrite dict_get_set in Hget; cbn [find]; unfold supplies at 1;
       rewrite Hkind;
       destruct (String.eqb (Page.name p) n) eqn:E;
       [ apply String.eqb_eq in E; subst n; rewrite Hown, Hkw, Hq;
         cbn [negb andb]; exists v; split; [exact Hv | exact Hget]
       | cbn [andb]; exact Hget ]).
Qed.

End BindFacts.

(** X8: the keyword arguments of the page call. A declared [request]
    parameter always receives the live request object, whatever the query
    string holds under that key. Any other keyword is passed exactly when
    a parameter of that name is declared that is not called [kwargs], is
    not variadic, and whose name is a key of the query string; its value is
    then the coercion of the query values at that parameter's annotation.
    A parameter whose key is absent from the query string is not passed. *)
Theorem keyword_arguments_bound :
  forall (PyFloat : Type) (py_int : string -> option Z)
         (py_float : string -> option PyFloat)
         (request : Page.Request) (sig : list Page.Param),
    let call_kwargs :=
      if Page.has_parameter sig "request"
      then [("request", Page.ArgRequest)] else [] in
    exists kw,
      Page.bind_parameters py_int py_float request call_kwargs sig = Py.Ret kw
      /\ Py.dict_get kw "request"
         = (if Page.has_parameter sig "request" then Some Page.ArgRequest else None)
      /\ forall n,
          n <> "request" ->
          match
            find (fun p =>
                    String.eqb (Page.name p) n
                    && negb (String.eqb n "kwargs")
                    && match Page.kind p with
                       | Page.VAR_POSITIONAL | Page.VAR_KEYWORD => false
                       | _ => true
                       end
                    && Coerce.contains (Page.query_params request) n)%bool sig
          with
          | Some p =>
              exists v,
                Coerce._coerce_query_param py_int py_float
                  (Page.query_params request) n (Page.annotation p) = Py.Ret v
                /\ Py.dict_get kw n = Some (Page.ArgValue v)
          | None => Py.dict_get kw n = None
          end.
Proof.
  intros PyFloat py_int py_float request sig call_kwargs.
  destruct (bind_parameters_get py_int py_float request sig call_kwargs)
    as (kw & Hrun & Hget).
  exists kw. split; [exact Hrun |]. split.
  - specialize (Hget "request"). subst call_kwargs.
    destruct (Page.has_parameter sig "request") eqn:Hhas.
    + exact Hget.
    + cbn in Hget.
      match type of Hget with
      | match find ?f sig with _ => _ end =>
          assert (Hnone : find f sig = None); [| now rewrite Hnone in Hget]
      end.
      apply find_none_of_all_false. intros p Hp.
      destruct (String.eqb (Page.name p) "request") eqn:E; [| reflexivity].
      exfalso. unfold Page.has_parameter in Hhas.
      assert (Hex : existsb (fun p0 => String.eqb (Page.name p0) "request") sig = true).
      { apply existsb_exists. exists p. split; [exact Hp | exact E]. }
      congruence.
  - intros n Hn. specialize (Hget n).
    assert (Hstart : Py.dict_get call_kwargs n = None).
    { subst call_kwargs. destruct (Page.has_parameter sig "request"); [| reflexivity].
      unfold Py.dict_get. cbn [find fst].
      destruct (String.eqb "request" n) eqn:E; [| reflexivity].
      apply String.eqb_eq in E. congruence. }
    rewrite Hstart in Hget. exact Hget.
Qed.

(** ** Metadata and render context *)

Lemma dict_get_app {V} (a b : Py.dict V) (k : string) :
  Py.dict_get (a ++ b)%list k
  = match Py.dict_get a k with
    | Some v => Some v
    | None => Py.dict_get b k
    end.
Proof.
  unfold Py.dict_get. induction a as [| [k0 v0] a IH]; simpl; [reflexivity |].
  destruct (String.eqb k0 k); [reflexivity | exact IH].
Qed.

Lemma dict_get_None_not_key {V} (d : Py.dict V) (k : string) :
  k ∉ map fst d -> Py.dict_get d k = None.
Proof.
  unfold Py.dict_get. induction d as [| [k0 v0] d IH]; simpl; intros H;
    [reflexivity |].
  apply not_elem_of_cons in H. destruct H as [Hne H].
  destruct (String.eqb k0 k) eqn:E.
  - apply String.eqb_eq in E. congruence.
  - now apply IH.
Qed.

(** On a dictionary, whose keys are distinct, the last binding of a key is
    its only binding. *)
Lemma dict_get_rev {V} (d : Py.dict V) (k : string) :
  NoDup (map fst d) -> Py.dict_get (rev d) k = Py.dict_get d k.
Proof.
  induction d as [| [k0 v0] d IH]; intros Hnd; [reflexivity |].
  simpl in Hnd. inversion Hnd as [| x l Hnotin Hnd']; subst.
  simpl rev. rewrite dict_get_app, (IH Hnd').
  unfold Py.dict_get at 2 3. simpl.
  destruct (String.eqb k0 k) eqn:E.
  - apply String.eqb_eq in E. subst k0.
    now rewrite (dict_get_None_not_key d k Hnotin).
  - fold (Py.dict_get d k). destruct (Py.dict_get d k); reflexivity.
Qed.

Lemma dict_get_update_rev {V} (other d : Py.dict V) (k : string) :
  Py.dict_get (Py.dict_update d other) k
  = match Py.dict_get (rev other) k with
    | Some v => Some v
    | None => Py.dict_get d k
    end.
Proof.
  unfold Py.dict_update. revert d.
  induction other as [| [k0 v0] other IH]; intros d; [reflexivity |].
  simpl fold_left. rewrite IH. simpl rev. rewrite dict_get_app, dict_get_set.
  destruct (Py.dict_get (rev other) k); [reflexivity |].
  unfold Py.dict_get. simpl.
  destruct (String.eqb k0 k); reflexivity.
Qed.

Lemma dict_get_update {V} (other d : Py.dict V) (k : string) :
  NoDup (map fst other) ->
  Py.dict_get (Py.dict_update d other) k
  = match Py.dict_get other k with
    | Some v => Some v
    | None => Py.dict_get d k
    end.
Proof. intros Hnd. now rewrite dict_get_update_rev, dict_get_rev. Qed.

Lemma dict_set_keys {V} (d : Py.dict V) (k : string) (v : V) :
  map fst (Py.dict_set d k v)
  = if Py.dict_contains d k then map fst d else (map fst d ++ [k])%list.
Proof.
  unfold Py.dict_contains. induction d as [| [k0 v0] d IH]; simpl; [reflexivity |].
  destruct (String.eqb k0 k) eqn:E; simpl.
  - apply String.eqb_eq in E. now subst.
  - rewrite IH. destruct (existsb _ d); reflexivity.
Qed.

Lemma dict_contains_key {V} (d : Py.dict V) (k : string) :
  Py.dict_contains d k = false -> k ∉ map fst d.
Proof.
  unfold Py.dict_contains. induction d as [| [k0 v0] d IH]; simpl; intros H.
  - apply not_elem_of_nil.
  - apply orb_false_iff in H. destruct H as [E H]. apply String.eqb_neq in E.
    apply not_elem_of_cons. split; [congruence | now apply IH].
Qed.

Lemma dict_set_NoDup {V} (d : Py.dict V) (k : string) (v : V) :
  NoDup (map fst d) -> NoDup (map fst (Py.dict_set d k v)).
Proof.
  intros Hnd. rewrite dict_set_keys.
  destruct (Py.dict_contains d k) eqn:E; [exact Hnd |].
  apply dict_contains_key in E. apply NoDup_app. split; [exact Hnd |].
  split; [| apply NoDup_singleton].
  intros x Hx Hk. apply list_elem_of_singleton in Hk. now subst.
Qed.

Lemma dict_update_NoDup {V} (other d : Py.dict V) :
  NoDup (map fst d) -> NoDup (map fst (Py.dict_update d other)).
Proof.
  unfold Py.dict_update. revert d.
  induction other as [| [k0 v0] other IH]; intros d Hnd; [exact Hnd |].
  simpl. apply IH. now apply dict_set_NoDup.
Qed.

Lemma extract_meta_NoDup (obj : option Page.Metadata) :
  NoDup (map fst (Page.extract_meta obj)).
Proof.
  destruct obj as [obj |]; cbn [Page.extract_meta]; [| apply NoDup_nil_2].
  apply dict_update_NoDup.
  destruct (Page.title obj) as [t |], (Page.description obj) as [d |];
    repeat match goal with
           | |- context [Py.truthy_str ?x] => destruct (Py.truthy_str x)
           end;
    repeat apply dict_set_NoDup; apply NoDup_nil_2.
Qed.

(** X11: page metadata is merged key by key, and what the page set while
    it ran takes precedence over what the module declares: a key of the
    dynamic metadata shows its dynamic value, any other key its static
    value. *)
Theorem page_metadata_precedence :
  forall (PyFloat : Type) (module : Page.PageModule PyFloat)
         (st : Page.State) (k : string),
    Py.dict_get (Page.page_metadata_of module st) k
    = match Py.dict_get (Page.extract_meta (Page._runtime_metadata st)) k with
      | Some v => Some v
      | None => Py.dict_get (Page.extract_meta (Page.metadata module)) k
      end.
Proof.
  intros PyFloat module st k. unfold Page.page_metadata_of.
  rewrite dict_get_update by apply extract_meta_NoDup.
  destruct (Py.dict_get (Page.extract_meta (Page._runtime_metadata st)) k);
    [reflexivity |].
  rewrite dict_get_update by apply extract_meta_NoDup.
  destruct (Py.dict_get (Page.extract_meta (Page.metadata module)) k); reflexivity.
Qed.

(** X12: the dictionary made of one metadata object. A key of [extra]
    shows the value [extra] gives it, also when the key is [title] or
    [description]; otherwise [title] and [description] show the fields of
    that name when they are set and not empty, and no other key is
    present. *)
Theorem extract_meta_fields :
  forall (obj : Page.Metadata) (k : string),
    NoDup (map fst (Page.extra obj)) ->
    let field (f : option string) :=
      match f with
      | Some t => if String.eqb t "" then None else Some t
      | None => None
      end in
    Py.dict_get (Page.extract_meta (Some obj)) k
    = match Py.dict_get (Page.extra obj) k with
      | Some v => Some v
      | None =>
          if String.eqb k "title" then field (Page.title obj)
          else if String.eqb k "description" then field (Page.description obj)
               else None
      end.
Proof.
  intros obj k Hnd field. cbn [Page.extract_meta].
  rewrite dict_get_update by exact Hnd.
  destruct (Py.dict_get (Page.extra obj) k); [reflexivity |].
  subst field. cbv beta.
  destruct (Page.title obj) as [[| c t] |], (Page.description obj) as [[| c' d] |];
    cbn [Py.truthy_str String.eqb]; rewrite ?dict_get_set;
    rewrite ?(String.eqb_sym k);
    destruct (String.eqb "title" k) eqn:Et;
    destruct (String.eqb "description" k) eqn:Ed;
    try reflexivity;
    apply String.eqb_eq in Et; apply String.eqb_eq in Ed; congruence.
Qed.

(** A page whose [extra] carries its own [title]. *)
Lemma extract_meta_fields_witness :
  let obj := {| Page.title := Some "Home"; Page.description := Some "";
                Page.extra := [("title", "Override"); ("robots", "noindex")] |} in
  map (Py.dict_get (Page.extract_meta (Some obj))) ["title"; "description"; "robots"]
  = [Some "Override"; None; Some "noindex"].
Proof.
  intros obj.
  assert (Hnd : NoDup (map fst (Page.extra obj))).
  { apply NoDup_cons. split; [| apply NoDup_singleton].
    apply not_elem_of_cons. split; [discriminate | apply not_elem_of_nil]. }
  cbn [map].
  rewrite (extract_meta_fields obj "title" Hnd).
  rewrite (extract_meta_fields obj "description" Hnd).
  rewrite (extract_meta_fields obj "robots" Hnd).
  reflexivity.
Defined.

Lemma dict_get_map {V W} (f : V -> W) (d : Py.dict V) (k : string) :
  Py.dict_get (map (fun kv => (fst kv, f (snd kv))) d) k = f <$> Py.dict_get d k.
Proof.
  unfold Py.dict_get. induction d as [| [k0 v0] d IH]; simpl; [reflexivity |].
  destruct (String.eqb k0 k); [reflexivity | exact IH].
Qed.

(** X13: the render context is the path parameters, then the request,
    then the layout props, each overriding what came before: a key of the
    layout props shows the prop, otherwise [request] is the request object
    (also when a path parameter has that name), otherwise a path parameter
    shows its value. *)
Theorem full_context_precedence :
  forall (kwargs : Py.dict string) (page_layout_props : Py.dict Page.PyObj)
         (k : string),
    NoDup (map fst page_layout_props) ->
    Py.dict_get (Page.full_context_of kwargs page_layout_props) k
    = match Py.dict_get page_layout_props k with
      | Some o => Some (Page.CObj o)
      | None =>
          if String.eqb k "request" then Some Page.CRequest
          else Page.CStr <$> Py.dict_get kwargs k
      end.
Proof.
  intros kwargs props k Hnd. unfold Page.full_context_of.
  rewrite dict_get_update.
  - rewrite dict_get_map. destruct (Py.dict_get props k); [reflexivity |].
    cbn [fmap option_fmap option_map].
    rewrite dict_get_set, dict_get_map, (String.eqb_sym k).
    reflexivity.
  - rewrite map_map. cbn [fst]. exact Hnd.
Qed.

(** A page at [/blog/{request}] that returns a [slug] prop. *)
Lemma full_context_precedence_witness :
  map (Py.dict_get (Page.full_context_of [("request", "x"); ("slug", "a")]
                      [("slug", Page.OStr "b")]))
      ["request"; "slug"; "other"]
  = [Some Page.CRequest; Some (Page.CObj (Page.OStr "b")); None].
Proof.
  assert (Hnd : NoDup (map fst [("slug", Page.OStr "b")])) by apply NoDup_singleton.
  cbn [map].
  rewrite !(full_context_precedence _ _ _ Hnd).
  reflexivity.
Defined.

(** ** Rendering and the cache *)

(** X15: a page saved by a GET is served again as it was. When a GET
    renders a non-empty page and the save is admitted, every later GET of
    the same path before the entry expires returns exactly that content,
    whatever the module loader, the page function and the renderers would
    now do; from the expiry on, the cache check misses and drops the
    entry, so the page is produced afresh. *)
Theorem saved_page_is_served_until_expiry :
  forall (PyFloat : Type) (py_int : string -> option Z)
         (py_float : string -> option PyFloat)
         (cfg : Http.Config) (env : Page.Env PyFloat)
         (request : Page.Request) (route_dir content : string)
         (page_metadata : Py.dict string) (props : Py.dict Page.PyObj)
         (rsc : option bool) (rttl : Z) (st st1 : Page.State)
         (resp : Http.Response),
    Page.render_and_cache cfg env request route_dir content page_metadata props
      rsc rttl st = (Py.Ret resp, st1) ->
    Page.method request = "GET" ->
    Page.should_cache_of cfg rsc = true ->
    let ttl := if rttl >? 0 then rttl else Http.DEFAULT_TTL cfg in
    let later (t : Z) (cache : gmap string Page.CacheEntry) :=
      {| Page.cache := cache; Page.now := t;
         Page._runtime_metadata := None;
         Page._runtime_injections := ([], []) |} in
    exists html root,
      resp = Http.HTMLResponse html 200 [("X-PP-Root-Layout", root)]
      /\ (html <> "" ->
          forall (env' : Page.Env PyFloat) (file_path : string) (t : Z),
            t < Page.now st + ttl ->
            Page.make_handler py_int py_float cfg env' file_path request
              (later t (Page.cache st1))
            = (Py.Ret (Http.HTMLResponse html 200 []), later t (Page.cache st1)))
      /\ (forall t : Z,
             Page.now st + ttl <= t ->
             Page.bindM Page.reset_runtime (fun _ => Page.cache_check cfg request)
               (later t (Page.cache st1))
             = (Py.Ret None, later t (delete (Page.path request) (Page.cache st1)))).
Proof.
  intros PyFloat py_int py_float cfg env request route_dir content meta props
         rsc rttl st st1 resp Hr Hget Hadmit ttl later.
  apply render_and_cache_inv in Hr. destruct Hr as (html & root & -> & Hst).
  rewrite Hadmit, Hget in Hst. change (String.eqb "GET" "GET") with true in Hst.
  cbn [andb Page.save_cache snd] in Hst. fold ttl in Hst.
  assert (Hentry : Page.cache st1 !! Page.path request
                   = Some {| Page.content := html;
                             Page.expiresAt := Page.now st + ttl |}).
  { rewrite Hst. cbn [Page.cache]. apply lookup_insert_eq. }
  assert (Hcheck : forall t,
             Page.bindM Page.reset_runtime (fun _ => Page.cache_check cfg request)
               (later t (Page.cache st1))
             = if t <? Page.now st + ttl
               then (Py.Ret (Some html), later t (Page.cache st1))
               else (Py.Ret None,
                     later t (delete (Page.path request) (Page.cache st1)))).
  { intros t. unfold Page.bindM, Page.reset_runtime, Page.cache_check,
      Page.serve_cache, later.
    rewrite Hget. change (String.eqb "GET" "GET") with true.
    cbn [Page.cache Page.now Page._runtime_metadata Page._runtime_injections].
    rewrite Hentry. cbn [Page.expiresAt Page.content].
    destruct (t <? Page.now st + ttl); reflexivity. }
  exists html, root. split; [reflexivity |]. split.
  - intros Hne env' file_path t Ht.
    rewrite (make_handler_after_check py_int py_float cfg env' file_path request
               _ (later t (Page.cache st1)) (Some html)).
    + cbn [Page.truthy_content default]. rewrite truthy_str_nonempty.
      apply String.eqb_neq in Hne. now rewrite Hne.
    + rewrite Hcheck. apply Z.ltb_lt in Ht. now rewrite Ht.
  - intros t Ht. rewrite Hcheck. apply Z.ltb_ge in Ht. now rewrite Ht.
Qed.

(** [/hello] rendered on a GET with [enabled=True] and a TTL of 60 at time
    1000, asked again at time 1059 by an application whose page would now
    fail. *)
Lemma saved_page_is_served_until_expiry_witness :
  let first := Page.render_and_cache Sample.dev (Sample.page_env Sample.cached_module)
                 (Sample.hello "GET") "src/app/hello" "hello" [] [] (Some true) 60
                 Sample.cold in
  let again := Page.make_handler Py.int_of_str Coerce.no_float Sample.dev
                 (Sample.page_env Fixtures.failing_module) "src/app/hello/index.py"
                 (Sample.hello "GET")
                 {| Page.cache := Page.cache (snd first); Page.now := 1059;
                    Page._runtime_metadata := None;
                    Page._runtime_injections := ([], []) |} in
  exists root,
    fst first = Py.Ret (Http.HTMLResponse "<main>hello</main>" 200
                          [("X-PP-Root-Layout", root)])
    /\ fst again = Py.Ret (Http.HTMLResponse "<main>hello</main>" 200 []).
Proof.
  intros first again.
  destruct (saved_page_is_served_until_expiry Empty_set Py.int_of_str Coerce.no_float
              Sample.dev (Sample.page_env Sample.cached_module)
              (Sample.hello "GET") "src/app/hello" "hello" [] [] (Some true) 60
              Sample.cold (snd first)
              (Http.HTMLResponse "<main>hello</main>" 200
                 [("X-PP-Root-Layout", "src/app/layout.html")])
              eq_refl eq_refl eq_refl) as (html & root & Hresp & Hserve & _).
  inversion Hresp; subst html root.
  exists "src/app/layout.html". split; [reflexivity |].
  subst again.
  rewrite (Hserve ltac:(discriminate) (Sample.page_env Fixtures.failing_module)
             "src/app/hello/index.py" 1059 eq_refl).
  reflexivity.
Defined.

(** X16: a failure before rendering is passed on as it is, and nothing is
    rendered or saved. On a module route that is not served from the
    cache: an exception of the module loader or of the page function
    leaves the handler unchanged, with the state as that code left it; a
    module without a [page] function makes the handler raise
    [AttributeError] naming the file. *)
Theorem page_failures_propagate :
  forall (PyFloat : Type) (py_int : string -> option Z)
         (py_float : string -> option PyFloat)
         (cfg : Http.Config) (env : Page.Env PyFloat)
         (file_path : string) (request : Page.Request)
         (st0 st_a : Page.State) (cached : option string),
    Py.endswith file_path ".py" = true ->
    Page.bindM Page.reset_runtime (fun _ => Page.cache_check cfg request) st0
    = (Py.Ret cached, st_a) ->
    Page.truthy_content cached = false ->
    let handled := Page.make_handler py_int py_float cfg env file_path request st0 in
    (forall e st_b,
        Page.load_route_module env file_path st_a = (Py.Raise e, st_b) ->
        handled = (Py.Raise e, st_b))
    /\ (forall module st_b,
           Page.load_route_module env file_path st_a = (Py.Ret module, st_b) ->
           Page.page module = None ->
           handled
           = (Py.Raise (Py.AttributeError ("Missing 'def page():' in " +:+ file_path)),
              st_b))
    /\ (forall module page st_b kw e st_c,
           Page.load_route_module env file_path st_a = (Py.Ret module, st_b) ->
           Page.page module = Some page ->
           Page.bind_parameters py_int py_float request
             (if Page.has_parameter (Page.signature page) "request"
              then [("request", Page.ArgRequest)] else [])
             (Page.signature page) = Py.Ret kw ->
           Page.call page
             (match Page.path_params request with
              | [] => []
              | _ => [Page.path_params request]
              end) kw st_b = (Py.Raise e, st_c) ->
           handled = (Py.Raise e, st_c)).
Proof.
  intros PyFloat py_int py_float cfg env file_path request st0 st_a cached
         Hpy Hchk Hmiss handled.
  subst handled.
  rewrite (make_handler_after_check py_int py_float cfg env _ _ _ _ _ Hchk).
  rewrite Hmiss, Hpy. unfold Page.invoke_page.
  split; [| split].
  - intros e st_b Hload. unfold Page.bindM. now rewrite Hload.
  - intros module st_b Hload Hpage. unfold Page.bindM. rewrite Hload, Hpage.
    reflexivity.
  - intros module page st_b kw e st_c Hload Hpage Hbind Hcall.
    unfold Page.bindM, Page.lift. rewrite Hload, Hpage. cbv zeta.
    match goal with
    | |- context [Page.bind_parameters ?a ?b ?c ?d ?f] =>
        replace (Page.bind_parameters a b c d f) with (Py.Ret kw)
          by (symmetry; exact Hbind)
    end.
    rewrite Hcall. reflexivity.
Qed.

(** A route whose module has no [page] function, and one whose [page]
    raises although it declares [enabled=True]: nothing reaches the
    cache. *)
Lemma page_failures_propagate_witness :
  Page.make_handler Py.int_of_str Coerce.no_float Fixtures.cached_config
    (Sample.page_env Fixtures.empty_module) "src/app/hello/index.py"
    (Sample.hello "GET") Sample.cold
  = (Py.Raise (Py.AttributeError "Missing 'def page():' in src/app/hello/index.py"),
     Sample.cold)
  /\ Page.make_handler Py.int_of_str Coerce.no_float Fixtures.cached_config
       (Sample.page_env Fixtures.failing_module) "src/app/hello/index.py"
       (Sample.hello "GET") Sample.cold
     = (Py.Raise (Py.OtherError "boom"), Sample.cold).
Proof.
  split.
  - exact (proj1 (proj2 (page_failures_propagate Empty_set Py.int_of_str
                           Coerce.no_float Fixtures.cached_config
                           (Sample.page_env Fixtures.empty_module)
                           "src/app/hello/index.py" (Sample.hello "GET")
                           Sample.cold Sample.cold None eq_refl eq_refl eq_refl))
                 Fixtures.empty_module Sample.cold eq_refl eq_refl).
  - destruct (Page.page Fixtures.failing_module) as [pg |] eqn:Hpg;
      [| discriminate Hpg].
    inversion Hpg as [Hpg']. rewrite <- Hpg' in Hpg.
    exact (proj2 (proj2 (page_failures_propagate Empty_set Py.int_of_str
                           Coerce.no_float Fixtures.cached_config
                           (Sample.page_env Fixtures.failing_module)
                           "src/app/hello/index.py" (Sample.hello "GET")
                           Sample.cold Sample.cold None eq_refl eq_refl eq_refl))
                 Fixtures.failing_module _ Sample.cold [] (Py.OtherError "boom")
                 Sample.cold eq_refl Hpg eq_refl eq_refl).
Defined.

(** ** Error pages *)


(** X18: the handler of HTTP errors. A response it returns carries the
    status of the exception. For a status other than 404 it is the inline
    page made of the exception detail, and [not-found.html] is not read.
    For a 404 without [not-found.html] it is the same inline page. For a
    404 with [not-found.html], a failure of the layout composition is not
    caught: the handler raises it. *)
Theorem http_error_handler :
  forall (env : NotFound.Env) (request : Page.Request) (exc : NotFound.HTTPException),
    let handled := NotFound.custom_404_handler env request exc in
    let inline :=
      Http.HTMLResponse ("<h1>" +:+ NotFound.detail exc +:+ "</h1>")
        (NotFound.status_code exc) [] in
    (forall resp, handled = Py.Ret resp ->
                  NotFound.status_of resp = Some (NotFound.status_code exc))
    /\ (NotFound.status_code exc <> 404 -> handled = Py.Ret inline)
    /\ (NotFound.not_found_page env = None -> handled = Py.Ret inline)
    /\ (forall content e,
           NotFound.status_code exc = 404 ->
           NotFound.not_found_page env = Some content ->
           NotFound.render_with_nested_layouts env content "src/app"
             [("title", "Page Not Found");
              ("description", "The page you are looking for does not exist.")]
             request = Py.Raise e ->
           handled = Py.Raise e)
    /\ (forall content html root,
           NotFound.status_code exc = 404 ->
           NotFound.not_found_page env = Some content ->
           NotFound.render_with_nested_layouts env content "src/app"
             [("title", "Page Not Found");
              ("description", "The page you are looking for does not exist.")]
             request = Py.Ret (html, root) ->
           handled = Py.Ret (Http.HTMLResponse html 404 [("X-PP-Root-Layout", root)])).
Proof.
  intros env request exc handled inline. subst handled inline.
  unfold NotFound.custom_404_handler, NotFound.inline_page.
  split; [| split; [| split; [| split]]].
  - intros resp.
    destruct (NotFound.status_code exc =? 404) eqn:E.
    + apply Z.eqb_eq in E.
      destruct (NotFound.not_found_page env) as [content |].
      * destruct (NotFound.render_with_nested_layouts env content _ _ _)
          as [[html root] |]; simpl; intros H; inversion H; subst.
        simpl. now rewrite E.
      * intros H. inversion H; subst. reflexivity.
    + intros H. inversion H; subst. reflexivity.
  - intros Hne. apply Z.eqb_neq in Hne. now rewrite Hne.
  - intros Hnone. rewrite Hnone. destruct (NotFound.status_code exc =? 404); reflexivity.
  - intros content e H404 Hpage Hr. rewrite H404, Hpage, Hr. reflexivity.
  - intros content html root H404 Hpage Hr. rewrite H404, Hpage, Hr. reflexivity.
Qed.

(** A 405, and a 404 whose layout fails to render. *)
Example http_error_handler_examples :
  NotFound.custom_404_handler (Fixtures.not_found_env true) (Sample.hello "PUT")
    {| NotFound.status_code := 405; NotFound.detail := "Method Not Allowed" |}
  = Py.Ret (Http.HTMLResponse "<h1>Method Not Allowed</h1>" 405 [])
  /\ NotFound.custom_404_handler (Fixtures.not_found_env true) (Sample.hello "GET")
       {| NotFound.status_code := 404; NotFound.detail := "Not Found" |}
     = Py.Ret (Http.HTMLResponse "<main><h1>Not here</h1></main>" 404
                 [("X-PP-Root-Layout", "src/app/layout.html")])
  /\ NotFound.custom_404_handler (Fixtures.not_found_env false) (Sample.hello "GET")
       {| NotFound.status_code := 404; NotFound.detail := "Not Found" |}
     = Py.Raise (Py.OtherError "layout.html: syntax error").
Proof. repeat split. Qed.

(** ** Route registration *)

Lemma rev_app_append (a b : string) :
  String.rev_app a b = String.rev_app a "" +:+ b.
Proof.
  revert b. induction a as [| c a IH]; intros b; [reflexivity |].
  cbn [String.rev_app]. rewrite (IH (String c b)), (IH (String c "")).
  rewrite append_assoc. reflexivity.
Qed.

Lemma rev_append (a b : string) :
  String.rev (a +:+ b) = String.rev b +:+ String.rev a.
Proof.
  unfold String.rev. revert b. induction a as [| c a IH]; intros b.
  - change ("" +:+ b) with b. now rewrite append_empty_r.
  - change (String c a +:+ b) with (String c (a +:+ b)).
    cbn [String.rev_app].
    rewrite (rev_app_append (a +:+ b)), IH, (rev_app_append a (String c "")).
    now rewrite append_assoc.
Qed.

Lemma prefix_empty (s : string) : String.prefix "" s = true.
Proof. destruct s; reflexivity. Qed.

(** Collapsing double slashes leaves alone a tail that has no slash. *)
Lemma replace_slashes_tail (t : string) :
  Routes.replace_from "//" "/" 0 t = t ->
  String.prefix "/" t = false ->
  forall (s : string) (k : nat),
    (k = 0%nat \/ (k = 1%nat /\ String.prefix "/" s = true)) ->
    Routes.replace_from "//" "/" k (s +:+ t)
    = Routes.replace_from "//" "/" k s +:+ t.
Proof.
  intros Hfix Hnoslash. induction s as [| c r IH]; intros k Hk.
  - destruct Hk as [-> | [_ Hp]]; [| discriminate Hp].
    change ("" +:+ t) with t. exact Hfix.
  - change (String c r +:+ t) with (String c (r +:+ t)).
    destruct Hk as [-> | [-> _]].
    + cbn [Routes.replace_from String.length Nat.sub].
      assert (Hpre : String.prefix "//" (String c (r +:+ t))
                     = String.prefix "//" (String c r)).
      { cbn [String.prefix]. destruct (ascii_dec "/" c); [| reflexivity].
        destruct r as [| c' r'].
        2:{ change (String c' r' +:+ t) with (String c' (r' +:+ t)).
            cbn [String.prefix]. destruct (ascii_dec "/" c'); [| reflexivity].
            now rewrite !prefix_empty. }
        change ("" +:+ t) with t. destruct t as [| c'' t']; [reflexivity |].
        cbn [String.prefix] in Hnoslash |- *.
        destruct (ascii_dec "/" c''); [| reflexivity].
        rewrite prefix_empty in Hnoslash. discriminate Hnoslash. }
      rewrite Hpre.
      destruct (String.prefix "//" (String c r)) eqn:Hp.
      * rewrite IH.
        -- now rewrite <- append_assoc.
        -- right. split; [reflexivity |].
           cbn [String.prefix] in Hp. destruct (ascii_dec "/" c); [| discriminate Hp].
           destruct r as [| c' r']; [discriminate Hp |].
           cbn [String.prefix] in Hp |- *.
           destruct (ascii_dec "/" c'); [apply prefix_empty | discriminate Hp].
      * rewrite IH by now left. reflexivity.
    + cbn [Routes.replace_from]. apply IH. now left.
Qed.

Lemma full_path_tail (route : Routes.RouteEntry) :
  exists base,
    Routes.full_path route
    = base +:+ (if Routes.has_py route then "index.py" else "index.html").
Proof.
  unfold Routes.full_path, Routes.replace.
  set (base_path := if Py.truthy_str (Routes.fs_dir route)
                    then "src/app/" +:+ Routes.fs_dir route else "src/app").
  exists (Routes.replace_from "//" "/" 0 (base_path +:+ "/")).
  rewrite <- (append_assoc base_path "/").
  apply replace_slashes_tail.
  - destruct (Routes.has_py route); reflexivity.
  - destruct (Routes.has_py route); reflexivity.
  - now left.
Qed.

Lemma Forall2_map_same {A B} (P : A -> B -> Prop) (f : A -> B) (l : list A) :
  (forall x, P x (f x)) -> Forall2 P l (map f l).
Proof. intros H. induction l; simpl; constructor; auto. Qed.

(** X19: [register_routes] registers the routes of the index one for one,
    in order; each registration carries the URL rule of its route, the
    methods GET and POST, the endpoint name of its file path, and a file
    path that is the route's directory followed by [index.py] when the
    index says the route has a Python module and by [index.html] when
    not, so it ends in [.py] exactly in the first case, whatever the
    directory is. The handler closed over the registered path of a route
    without a module (when not served from the cache) reads the static
    template and loads no module. *)
Theorem registered_path_matches_module_flag :
  forall (routes : list Routes.RouteEntry),
    Forall2
      (fun route r =>
         Routes.url_pattern r = Routes.fastapi_rule route
         /\ Routes.methods r = ["GET"; "POST"]
         /\ Routes.route_name r = Routes.endpoint (Routes.file_path r)
         /\ (exists base,
                Routes.file_path r
                = base +:+ (if Routes.has_py route then "index.py" else "index.html"))
         /\ Py.endswith (Routes.file_path r) ".py" = Routes.has_py route
         /\ (forall (PyFloat : Type) (py_int : string -> option Z)
                    (py_float : string -> option PyFloat)
                    (cfg : Http.Config) (env : Page.Env PyFloat)
                    (request : Page.Request)
                    (st0 st_a : Page.State) (cached : option string),
                Routes.has_py route = false ->
                Page.bindM Page.reset_runtime
                  (fun _ => Page.cache_check cfg request) st0
                = (Py.Ret cached, st_a) ->
                Page.truthy_content cached = false ->
                Page.make_handler py_int py_float cfg env (Routes.file_path r)
                  request st0
                = Page.bindM
                    (Page.lift (Page.load_template_file env (Routes.file_path r)))
                    (fun content =>
                       Page.render_and_cache cfg env request
                         (Page.dirname env (Routes.file_path r)) content
                         [] [] None 0)
                    st_a))
      routes (Routes.register_routes routes).
Proof.
  intros routes. unfold Routes.register_routes.
  apply Forall2_map_same. intros route.
  cbn [Routes.register_single_route Routes.url_pattern Routes.methods
       Routes.route_name Routes.file_path].
  assert (Hends : Py.endswith (Routes.full_path route) ".py" = Routes.has_py route).
  { destruct (full_path_tail route) as (base & ->).
    unfold Py.endswith. rewrite rev_append.
    destruct (Routes.has_py route); reflexivity. }
  split; [reflexivity |]. split; [reflexivity |]. split; [reflexivity |].
  split; [apply full_path_tail |]. split; [exact Hends |].
  intros PyFloat py_int py_float cfg env request st0 st_a cached Hpy Hchk Hmiss.
  rewrite (make_handler_after_check py_int py_float cfg env _ _ _ _ _ Hchk).
  now rewrite Hmiss, Hends, Hpy.
Qed.

Lemma chars_append (a b : string) :
  list_ascii_of_string (a +:+ b)
  = (list_ascii_of_string a ++ list_ascii_of_string b)%list.
Proof.
  induction a as [| c a IH]; [reflexivity |].
  change (String c a +:+ b) with (String c (a +:+ b)).
  cbn [list_ascii_of_string]. now rewrite IH.
Qed.

(** Replacing one character: the result has none of it left, provided the
    replacement has none, and keeps what held of every character. *)
Lemma replace_char_Forall (Q : ascii -> Prop) (a : ascii) (new s : string) :
  Forall Q (list_ascii_of_string s) ->
  Forall (fun c => Q c /\ c <> a) (list_ascii_of_string new) ->
  Forall (fun c => Q c /\ c <> a)
         (list_ascii_of_string (Routes.replace s (String a "") new)).
Proof.
  intros Hs Hnew. unfold Routes.replace.
  induction s as [| c r IH]; [constructor |].
  cbn [list_ascii_of_string] in Hs. inversion Hs as [| x l Hc Hr]; subst.
  cbn [Routes.replace_from String.length Nat.sub String.prefix].
  destruct (ascii_dec a c) as [Heq | Hne].
  - rewrite prefix_empty, chars_append. apply Forall_app. split; [exact Hnew |].
    now apply IH.
  - cbn [list_ascii_of_string]. constructor; [| now apply IH].
    split; [exact Hc | congruence].
Qed.

(** Discharge the premise on the replacement text: it is empty or a single
    underscore. *)
Ltac feed_chars H :=
  match type of H with
  | ?P -> _ =>
      let Hp := fresh in
      assert (Hp : P)
        by (repeat constructor; first [now right | discriminate]);
      specialize (H Hp); clear Hp
  end.

(** X20: the endpoint name of a file path has no slash, backslash, dot,
    bracket or parenthesis in it; each of its characters is a character of
    the path or an underscore. Paths that differ only in such characters
    get the same name. *)
Theorem endpoint_name_characters :
  (forall file_path : string,
      Forall (fun c =>
                (In c (list_ascii_of_string file_path) \/ c = "_"%char)
                /\ ~ In c ["/"; "\"; "."; "["; "]"; "("; ")"]%char)
             (list_ascii_of_string (Routes.endpoint file_path)))
  /\ Routes.endpoint "src/app/[id]/index.py" = "src_app_id_index_py"
  /\ Routes.endpoint "src/app/id/index.py" = "src_app_id_index_py".
Proof.
  split; [| split; reflexivity].
  intros file_path. unfold Routes.endpoint.
  set (Q0 := fun c : ascii => In c (list_ascii_of_string file_path) \/ c = "_"%char).
  assert (H0 : Forall Q0 (list_ascii_of_string file_path)).
  { apply Forall_forall. intros c Hc. left. now apply list_elem_of_In. }
  pose proof (replace_char_Forall Q0 "/" "_" file_path H0) as H1. feed_chars H1.
  pose proof (replace_char_Forall _ "\" "_" _ H1) as H2. feed_chars H2.
  pose proof (replace_char_Forall _ "." "_" _ H2) as H3. feed_chars H3.
  pose proof (replace_char_Forall _ "[" "" _ H3) as H4. feed_chars H4.
  pose proof (replace_char_Forall _ "]" "" _ H4) as H5. feed_chars H5.
  pose proof (replace_char_Forall _ "(" "" _ H5) as H6. feed_chars H6.
  pose proof (replace_char_Forall _ ")" "" _ H6) as H7. feed_chars H7.
  subst Q0. cbv beta in H7.
  eapply Forall_impl; [exact H7 |].
  cbv beta.
  intros c ((((((([Hc | Hc] & n1) & n2) & n3) & n4) & n5) & n6) & n7);
    (split; [first [now left | now right] |]);
    simpl; intros Hin;
    repeat match goal with
           | H : _ \/ _ |- _ => destruct H as [H | H]
           | H : False |- _ => destruct H
           end; congruence.
Qed.

(** ** More worked examples *)

(** A query string that tries to spoof [request] and to feed the variadic
    captures: only [page] and [tag] are bound from it. *)
Example listing_keyword_arguments :
  Page.bind_parameters Py.int_of_str Coerce.no_float Fixtures.listing_request
    [("request", Page.ArgRequest)] Fixtures.listing_signature
  = Py.Ret [("request", Page.ArgRequest);
            ("page", Page.ArgValue (Coerce.VInt 2));
            ("tag", Page.ArgValue (Coerce.VList [Coerce.VStr "a"; Coerce.VStr "b"]))].
Proof. reflexivity. Qed.

(** The index files and endpoint names of a small route index. *)
Example registered_index :
  map (fun r => (Routes.url_pattern r, Routes.file_path r, Routes.route_name r))
      (Routes.register_routes Fixtures.index)
  = [("/", "src/app/index.py", "src_app_index_py");
     ("/about", "src/app/about/index.html", "src_app_about_index_html");
     ("/blog/{slug}", "src/app/blog/[slug]/index.py", "src_app_blog_slug_index_py")].
Proof. reflexivity. Qed.

(** [str.replace] scans from the left and does not look back. *)
Example replace_does_not_overlap :
  Routes.replace "a///b//c/" "//" "/" = "a//b/c/"
  /\ Routes.replace "aaa" "aa" "b" = "ba"
  /\ Routes.replace "abc" "" "-" = "-a-b-c-".
Proof. repeat split. Qed.

(** An [error.html] that is there but cannot be decoded: the read is not
    inside the [try], so the handler raises instead of answering. *)
Example unreadable_error_page_escapes :
  Errors.custom_general_exception_handler Sample.prod
    {| Errors.str_exc := fun _ => "boom";
       Errors.error_page := Some (Py.Raise (Py.OtherError "UnicodeDecodeError"));
       Errors.render_string := Sample.print_error;
       Errors.render_with_nested_layouts := fun children _ _ _ =>
         Py.Ret (children, "src/app/layout.html") |}
    (Sample.hello "GET") (Py.OtherError "boom") "Traceback ..."
  = Py.Raise (Py.OtherError "UnicodeDecodeError").
Proof. reflexivity. Qed.
